(** * youtube_audio_bot: playlist store, media resolver and request handlers

    A shallow embedding of [youtube_audio_bot.py].  The PostgreSQL table
    [playlists] is a list of rows with the composite primary key of
    [init_db]; every handler is a computation over a world made of the
    committed table, the files under [/tmp] and the messages sent so far.
    Python exceptions are explicit: a computation returns a value or raises,
    and the effects performed before the raise stay in the world.  A Python
    [str] is the string of its UTF-8 bytes. *)

From Stdlib Require Import String Ascii List ZArith Bool Lia.
From Stdlib Require Import DecimalString Permutation.
Import ListNotations.
Local Open Scope string_scope.
Local Open Scope list_scope.

(* ================================================================= *)
(** ** Python string operations used by the handlers *)

Module PyStr.

(** [str.startswith] *)
Definition startswith (s p : string) : bool := String.prefix p s.

(** [sep.join(xs)] *)
Fixpoint join (sep : string) (xs : list string) : string :=
  match xs with
  | [] => ""
  | [x] => x
  | x :: rest => x ++ sep ++ join sep rest
  end.

(** The whitespace characters of [str.isspace], by the bytes of their
    UTF-8 encoding.  One byte: U+0009 to U+000D, U+001C to U+0020. *)
Definition ws1 (c : ascii) : bool :=
  let n := nat_of_ascii c in
  (Nat.leb 9 n && Nat.leb n 13) || (Nat.leb 28 n && Nat.leb n 32).

(** Two bytes: U+0085 (C2 85) and U+00A0 (C2 A0). *)
Definition ws2 (c1 c2 : ascii) : bool :=
  Nat.eqb (nat_of_ascii c1) 194
  && (Nat.eqb (nat_of_ascii c2) 133 || Nat.eqb (nat_of_ascii c2) 160).

(** Three bytes: U+1680 (E1 9A 80), U+2000 to U+200A (E2 80 80 to 8A),
    U+2028 and U+2029 (E2 80 A8, A9), U+202F (E2 80 AF), U+205F (E2 81 9F)
    and U+3000 (E3 80 80). *)
Definition ws3 (c1 c2 c3 : ascii) : bool :=
  let n1 := nat_of_ascii c1 in
  let n2 := nat_of_ascii c2 in
  let n3 := nat_of_ascii c3 in
  (Nat.eqb n1 225 && Nat.eqb n2 154 && Nat.eqb n3 128)
  || (Nat.eqb n1 226 && Nat.eqb n2 128
      && ((Nat.leb 128 n3 && Nat.leb n3 138)
          || Nat.eqb n3 168 || Nat.eqb n3 169 || Nat.eqb n3 175))
  || (Nat.eqb n1 226 && Nat.eqb n2 129 && Nat.eqb n3 159)
  || (Nat.eqb n1 227 && Nat.eqb n2 128 && Nat.eqb n3 128).

(** The number of bytes of the whitespace character [s] starts with, 0
    when [s] does not start with one. *)
Definition ws_len (s : string) : nat :=
  match s with
  | String c1 r1 =>
      if ws1 c1 then 1
      else match r1 with
           | String c2 r2 =>
               if ws2 c1 c2 then 2
               else match r2 with
                    | String c3 _ => if ws3 c1 c2 c3 then 3 else 0
                    | EmptyString => 0
                    end
           | EmptyString => 0
           end
  | EmptyString => 0
  end.

(** [s] is made of whitespace characters only; [skip] counts the bytes of
    the character being read that are still to be passed. *)
Fixpoint all_ws_from (skip : nat) (s : string) : bool :=
  match s with
  | EmptyString => true
  | String _ s' =>
      match skip with
      | S k => all_ws_from k s'
      | O => match ws_len s with
             | O => false
             | S k => all_ws_from k s'
             end
      end
  end.

Definition all_ws (s : string) : bool := all_ws_from 0 s.

Fixpoint lstrip_from (skip : nat) (s : string) : string :=
  match s with
  | EmptyString => EmptyString
  | String _ s' =>
      match skip with
      | S k => lstrip_from k s'
      | O => match ws_len s with
             | O => s
             | S k => lstrip_from k s'
             end
      end
  end.

Definition lstrip (s : string) : string := lstrip_from 0 s.

Fixpoint rstrip (s : string) : string :=
  match s with
  | EmptyString => EmptyString
  | String c s' => if all_ws s then EmptyString else String c (rstrip s')
  end.

(** [str.strip()] *)
Definition strip (s : string) : string := rstrip (lstrip s).

(** [str.split()] without argument: runs of whitespace separate the
    tokens, and no empty token is produced.  [cur] is the token being
    read, [skip] the bytes of a whitespace character still to be passed. *)
Fixpoint split_ws_from (cur : string) (skip : nat) (s : string) : list string :=
  match s with
  | EmptyString => if String.eqb cur "" then [] else [cur]
  | String c s' =>
      match skip with
      | S k => split_ws_from cur k s'
      | O =>
          match ws_len s with
          | O => split_ws_from (cur ++ String c EmptyString) 0 s'
          | S k => if String.eqb cur "" then split_ws_from "" k s'
                   else cur :: split_ws_from "" k s'
          end
      end
  end.

Definition split_ws (s : string) : list string := split_ws_from "" 0 s.

(** [str.split(sep)] for a one-character separator: empty pieces are
    kept, and the result is never empty. *)
Fixpoint split_on (sep : ascii) (s : string) : list string :=
  match s with
  | EmptyString => [""]
  | String c s' =>
      if Ascii.eqb c sep then "" :: split_on sep s'
      else match split_on sep s' with
           | piece :: rest => String c piece :: rest
           | [] => [String c EmptyString]
           end
  end.

(** [str.replace(old, new)]: every non-overlapping occurrence, left to
    right.  [skip] counts the characters of the occurrence just matched
    that are still to be dropped. *)
Fixpoint replace_from (old new : string) (skip : nat) (s : string) : string :=
  match s with
  | EmptyString => if String.eqb old "" then new else EmptyString
  | String c s' =>
      match skip with
      | S k => replace_from old new k s'
      | O =>
          if String.prefix old s
          then new ++ (if String.eqb old ""
                       then String c (replace_from old new 0 s')
                       else replace_from old new (String.length old - 1) s')
          else String c (replace_from old new 0 s')
      end
  end.

Definition replace (s old new : string) : string := replace_from old new 0 s.

(** [str(n)] and [f'{n}'] for an integer *)
Definition of_int (n : Z) : string := NilZero.string_of_int (Z.to_int n).

(** [' ' in s] *)
Fixpoint has_space (s : string) : bool :=
  match s with
  | EmptyString => false
  | String c s' => Ascii.eqb c " "%char || has_space s'
  end.

(** No whitespace character starts anywhere in [s]. *)
Fixpoint no_ws (s : string) : bool :=
  match s with
  | EmptyString => true
  | String _ s' => Nat.eqb (ws_len s) 0 && no_ws s'
  end.

(** No whitespace character starts in the first [n] bytes of [s]. *)
Fixpoint no_ws_prefix (n : nat) (s : string) : bool :=
  match n, s with
  | S k, String _ s' => Nat.eqb (ws_len s) 0 && no_ws_prefix k s'
  | _, _ => true
  end.


End PyStr.

(* ================================================================= *)
(** ** The [playlists] table *)

(** One row of the table created by [init_db]:
    [user_id BIGINT, playlist_name TEXT, song_title TEXT, song_url TEXT]. *)
Record Row := mkRow {
  user_id : Z;
  playlist_name : string;
  song_title : string;
  song_url : string
}.

Definition Table := list Row.

(** [PRIMARY KEY (user_id, playlist_name, song_url)] *)
Definition primary_key (r : Row) : Z * string * string :=
  (user_id r, playlist_name r, song_url r).

Definition key_eqb (k1 k2 : Z * string * string) : bool :=
  let '(u1, n1, l1) := k1 in
  let '(u2, n2, l2) := k2 in
  Z.eqb u1 u2 && String.eqb n1 n2 && String.eqb l1 l2.

Definition has_key (k : Z * string * string) (t : Table) : bool :=
  existsb (fun r => key_eqb (primary_key r) k) t.

(** The constraint the table declares: no two rows share a key. *)
Definition key_unique (t : Table) : Prop := NoDup (map primary_key t).

(** [CREATE TABLE IF NOT EXISTS playlists (...)]: the store is [None]
    before the table exists. *)
Definition init_db (store : option Table) : option Table :=
  match store with
  | None => Some []
  | Some t => Some t
  end.

(** [WHERE user_id = %s AND playlist_name = %s] *)
Definition in_playlist (uid : Z) (name : string) (r : Row) : bool :=
  Z.eqb (user_id r) uid && String.eqb (playlist_name r) name.

(** [INSERT INTO playlists (user_id, playlist_name, song_title, song_url)
    VALUES (%s, %s, %s, %s)]: [None] is the unique violation that
    psycopg2 reports as [IntegrityError]. *)
Definition sql_insert (r : Row) (t : Table) : option Table :=
  if has_key (primary_key r) t then None else Some (t ++ [r]).

(** The rows selected by [SELECT song_title, song_url FROM playlists
    WHERE user_id = %s AND playlist_name = %s AND song_title != %s] with
    the last parameter [''], listed as the table holds them; the order in
    which the server returns them is set in [execute_select]. *)
Definition sql_select_songs (uid : Z) (name : string) (t : Table)
  : list (string * string) :=
  map (fun r => (song_title r, song_url r))
      (filter (fun r => in_playlist uid name r
                        && negb (String.eqb (song_title r) "")) t).

(** [DELETE FROM playlists WHERE user_id = %s AND playlist_name = %s] *)
Definition sql_delete (uid : Z) (name : string) (t : Table) : Table :=
  filter (fun r => negb (in_playlist uid name r)) t.

(** The row [create_playlist] inserts: empty title and empty url. *)
Definition sentinel (uid : Z) (name : string) : Row := mkRow uid name "" "".

(** The rows of one owner, and the rows of one playlist name. *)
Definition rows_of (uid : Z) (t : Table) : Table :=
  filter (fun r => Z.eqb (user_id r) uid) t.


(** The rows [WHERE user_id = %s AND playlist_name = %s] selects. *)
Definition playlist_rows (uid : Z) (name : string) (t : Table) : Table :=
  filter (in_playlist uid name) t.

(* ================================================================= *)
(** ** Worlds, exceptions and computations *)

(** What the fetch-and-transcode capability can fail with. *)
Inductive FetchFailure :=
| NetworkError
| NoResults
| UnsupportedSource
| TranscodeFailure.

(** The exception classes that occur; all of them derive from Python's
    [Exception]. *)
Inductive ExnClass :=
| IntegrityError                      (* psycopg2.IntegrityError *)
| OperationalError                    (* any other psycopg2 error *)
| DownloadError (cause : FetchFailure) (* raised by yt_dlp *)
| AttributeError
| FileNotFoundError
| TypeError
| TelegramError.

(** An exception object: its class and [str(e)]. *)
Record Exn := mkExn { exn_class : ExnClass; exn_str : string }.

Definition is_IntegrityError (e : Exn) : bool :=
  match exn_class e with
  | IntegrityError => true
  | _ => false
  end.

(** A message handed to the chat transport. *)
Inductive Reply :=
| ReplyText (text : string)
| ReplyAudio (path title filename : string).

Record World := mkWorld {
  db : Table;              (* committed rows of [playlists] *)
  files : list string;     (* paths that exist on disk *)
  outbox : list Reply      (* replies sent, oldest first *)
}.

(** What [ydl.extract_info] returns: the info dictionary, with the key
    ['title'] when present and the path [ydl.prepare_filename] gives. *)
Record Info := mkInfo { info_title : option string; info_filename : string }.

(** One run of yt_dlp: the files it leaves on disk, the files that were on
    disk and that it deletes (the [FFmpegExtractAudio] post-processor
    deletes the file it transcodes), and either the exception it raises or
    the value it returns ([None] is possible). *)
Record YdlOutcome := mkYdl {
  ydl_written : list string;
  ydl_removed : list string;
  ydl_result : (FetchFailure * string) + option Info
}.

(** The behaviour of the collaborators during one handler run.  A fault
    is [Some msg] when the call raises a psycopg2 error other than a
    unique violation (connection loss, schema mismatch) or, for
    [delivery_fault], when [reply_audio] raises.  [row_order] is the order
    in which the server returns the rows of a [SELECT] without
    [ORDER BY]: the place it gives to each row among those already
    placed. *)
Record Env := mkEnv {
  ydl_extract_info : string -> bool -> Z -> YdlOutcome;
  connect_fault : option string;
  execute_fault : option string;
  commit_fault : option string;
  delivery_fault : option string;
  row_order : nat -> nat
}.

Inductive Result (A : Type) :=
| Ret (a : A)
| Raise (e : Exn).
Arguments Ret {A} a.
Arguments Raise {A} e.

Definition is_IntegrityError_result {A} (r : Result A) : bool :=
  match r with
  | Raise e => is_IntegrityError e
  | Ret _ => false
  end.

(** A computation: runs in a world, ends by returning or raising, and
    leaves a world behind in both cases. *)
Definition M (A : Type) : Type := World -> Result A * World.

Definition ret {A} (a : A) : M A := fun w => (Ret a, w).

Definition raise {A} (e : Exn) : M A := fun w => (Raise e, w).

Definition bind {A B} (m : M A) (k : A -> M B) : M B :=
  fun w =>
    match m w with
    | (Ret a, w') => k a w'
    | (Raise e, w') => (Raise e, w')
    end.

(** [try: body  except <catches>: handler] *)
Definition try_except {A} (body : M A) (catches : Exn -> bool)
  (handler : Exn -> M A) : M A :=
  fun w =>
    match body w with
    | (Ret a, w') => (Ret a, w')
    | (Raise e, w') => if catches e then handler e w' else (Raise e, w')
    end.

Declare Scope py_scope.
Delimit Scope py_scope with py.
Notation "x <- m ;; k" := (bind m (fun x => k))
  (at level 61, m at next level, right associativity) : py_scope.
Notation "m ;; k" := (bind m (fun _ => k))
  (at level 61, right associativity) : py_scope.
Notation "' pat <- m ;; k" := (bind m (fun x => match x with pat => k end))
  (at level 61, pat pattern, m at next level, right associativity) : py_scope.
Local Open Scope py_scope.

(** [await update.message.reply_text(s)]; sending a text is taken not to
    raise. *)
Definition reply_text (s : string) : M unit :=
  fun w => (Ret tt, mkWorld (db w) (files w) (outbox w ++ [ReplyText s])).

(** A [telegram.Audio] object. *)
Record AudioObject := mkAudio {
  audio_path : string;
  audio_title : string;
  audio_filename : string
}.

(** [Audio(audio_file, title=title, filename=f"{title}.mp3")].  The
    constructor of [telegram.Audio] has the required parameters [file_id],
    [file_unique_id] and [duration] and no parameter [filename]: Python
    rejects the call with [TypeError] before the constructor runs, so no
    object is ever built. *)
Definition Audio (path title filename : string) : M AudioObject :=
  raise (mkExn TypeError
           "Audio.__init__() got an unexpected keyword argument 'filename'").

(** [await update.message.reply_audio(audio)] *)
Definition reply_audio (env : Env) (audio : AudioObject) : M unit :=
  fun w =>
    match delivery_fault env with
    | Some m => (Raise (mkExn TelegramError m), w)
    | None => (Ret tt, mkWorld (db w) (files w)
                               (outbox w ++ [ReplyAudio (audio_path audio)
                                               (audio_title audio)
                                               (audio_filename audio)]))
    end.

Definition file_exists (path : string) (w : World) : bool :=
  existsb (String.eqb path) (files w).

(** [os.path.exists(path)] *)
Definition os_path_exists (path : string) : M bool :=
  fun w => (Ret (file_exists path w), w).

(** [os.remove(path)] *)
Definition os_remove (path : string) : M unit :=
  fun w =>
    if file_exists path w
    then (Ret tt, mkWorld (db w)
                          (filter (fun f => negb (String.eqb path f)) (files w))
                          (outbox w))
    else (Raise (mkExn FileNotFoundError
                   ("[Errno 2] No such file or directory: '" ++ path ++ "'")),
          w).

(** *** The connection of [get_db_connection]

    psycopg2 opens a transaction at the first statement; the statements
    act on [pending], and [commit] makes [pending] the committed table.
    A connection closed or dropped without commit changes nothing. *)
Record Conn := mkConn { pending : Table }.

Definition get_db_connection (env : Env) : M Conn :=
  fun w =>
    match connect_fault env with
    | Some m => (Raise (mkExn OperationalError m), w)
    | None => (Ret (mkConn (db w)), w)
    end.

Definition execute_insert (env : Env) (c : Conn) (r : Row) : M Conn :=
  match execute_fault env with
  | Some m => raise (mkExn OperationalError m)
  | None =>
      match sql_insert r (pending c) with
      | None => raise (mkExn IntegrityError "duplicate key value violates unique constraint")
      | Some t => ret (mkConn t)
      end
  end.

(** The rows of a result in the order the server returns them: each row
    is placed among the rows after it, at the place [pos] gives.  Every
    order of the rows is obtained for some [pos], and nothing else. *)
Fixpoint insert_at {A} (n : nat) (x : A) (l : list A) : list A :=
  match n, l with
  | S k, y :: l' => y :: insert_at k x l'
  | _, _ => x :: l
  end.

Fixpoint arrange {A} (pos : nat -> nat) (l : list A) : list A :=
  match l with
  | [] => []
  | x :: l' => insert_at (pos (length l')) x (arrange pos l')
  end.

(** [cursor.execute('SELECT ...')] and [cursor.fetchall()] *)
Definition execute_select (env : Env) (c : Conn) (uid : Z) (name : string)
  : M (list (string * string)) :=
  match execute_fault env with
  | Some m => raise (mkExn OperationalError m)
  | None => ret (arrange (row_order env)
                         (sql_select_songs uid name (pending c)))
  end.

Definition execute_delete (env : Env) (c : Conn) (uid : Z) (name : string)
  : M Conn :=
  match execute_fault env with
  | Some m => raise (mkExn OperationalError m)
  | None => ret (mkConn (sql_delete uid name (pending c)))
  end.

Definition commit (env : Env) (c : Conn) : M unit :=
  fun w =>
    match commit_fault env with
    | Some m => (Raise (mkExn OperationalError m), w)
    | None => (Ret tt, mkWorld (pending c) (files w) (outbox w))
    end.

Definition close (c : Conn) : M unit := ret tt.

(* ================================================================= *)
(** ** The media resolver *)

(** The files on disk after a run of yt_dlp. *)
Definition files_after (o : YdlOutcome) (fs : list string) : list string :=
  ydl_written o
  ++ filter (fun f => negb (existsb (String.eqb f) (ydl_removed o))) fs.

(** [ydl.extract_info(url_or_query, download=True)]: the run changes the
    files on disk whether the call returns or raises. *)
Definition extract_info (env : Env) (query : string) (search : bool) (uid : Z)
  : M (option Info) :=
  fun w =>
    let o := ydl_extract_info env query search uid in
    let w' := mkWorld (db w) (files_after o (files w)) (outbox w) in
    match ydl_result o with
    | inl (cause, m) => (Raise (mkExn (DownloadError cause) m), w')
    | inr info => (Ret info, w')
    end.

(** [info.get('title', 'Unknown')] *)
Definition info_get_title (info : option Info) : M string :=
  match info with
  | None => raise (mkExn AttributeError "'NoneType' object has no attribute 'get'")
  | Some i =>
      ret (match info_title i with
           | Some t => t
           | None => "Unknown"
           end)
  end.

(** [ydl.prepare_filename(info)] *)
Definition prepare_filename (info : option Info) : M string :=
  match info with
  | None => raise (mkExn AttributeError "'NoneType' object has no attribute 'get'")
  | Some i => ret (info_filename i)
  end.

(** [download_audio(url_or_query, user_id)]: the pair [(filename, title)],
    or [(None, str(e))] from the [except Exception] clause.  Building the
    [YoutubeDL] object and leaving its [with] block are taken not to
    raise. *)
Definition download_audio (env : Env) (url_or_query : string) (uid : Z)
  : M (option string * string) :=
  let search := negb (PyStr.startswith url_or_query "http") in
  try_except
    (info <- extract_info env url_or_query search uid ;;
     title <- info_get_title info ;;
     path <- prepare_filename info ;;
     let filename :=
       PyStr.replace (PyStr.replace path ".webm" ".mp3") ".m4a" ".mp3" in
     ret (Some filename, title))
    (fun _ => true)
    (fun e => ret (None, exn_str e)).

(** Python's truth value of [filename]: [None] and [''] are false. *)
Definition truthy (o : option string) : bool :=
  match o with
  | Some s => negb (String.eqb s "")
  | None => false
  end.

Definition the_path (o : option string) : string :=
  match o with
  | Some s => s
  | None => ""
  end.

(* ================================================================= *)
(** ** The handlers *)

(** [with open(path, 'rb') as f: body]: the handle is released on both
    exits of [body]; releasing it does nothing to the file on disk. *)
Definition with_open {A} (path : string) (body : M A) : M A := body.

Definition handle_message (env : Env) (uid : Z) (raw : string) : M unit :=
  let text := PyStr.strip raw in
  if String.eqb text ""
  then reply_text "Please send a YouTube link or song name."
  else
    reply_text "Downloading... Please wait." ;;
    '(filename, title) <- download_audio env text uid ;;
    present <- (if truthy filename
                then os_path_exists (the_path filename)
                else ret false) ;;
    if present
    then
      with_open (the_path filename)
        (audio <- Audio (the_path filename) title (title ++ ".mp3") ;;
         reply_audio env audio) ;;
      os_remove (the_path filename)
    else reply_text ("Failed to download: " ++ title).

Definition create_playlist (env : Env) (uid : Z) (args : list string) : M unit :=
  match args with
  | [] => reply_text "Usage: /create_playlist <name>"
  | _ =>
      let name := PyStr.join " " args in
      conn <- get_db_connection env ;;
      try_except
        (conn' <- execute_insert env conn (mkRow uid name "" "") ;;
         commit env conn' ;;
         reply_text ("Playlist '" ++ name ++ "' created."))
        is_IntegrityError
        (fun _ => reply_text ("Playlist '" ++ name ++ "' already exists.")) ;;
      close conn
  end.

(** The placeholder url of [add_to_playlist]. *)
Definition song_url_of (song_input : string) : string :=
  if PyStr.startswith song_input "http" then song_input
  else "https://www.youtube.com/watch?v=" ++ song_input.

(** [filename.split('/')[-1].replace('.mp3', '').replace(f'{user_id}_', '')] *)
Definition song_title_of (uid : Z) (filename : string) : string :=
  PyStr.replace
    (PyStr.replace (last (PyStr.split_on "/"%char filename) "") ".mp3" "")
    (PyStr.of_int uid ++ "_") "".

Definition add_to_playlist (env : Env) (uid : Z) (args : list string) : M unit :=
  match args with
  | [] | [_] =>
      reply_text "Usage: /add_to_playlist <playlist_name> <song_link_or_name>"
  | name :: rest =>
      let song_input := PyStr.join " " rest in
      '(filename, error) <- download_audio env song_input uid ;;
      if negb (truthy filename)
      then reply_text ("Failed to add: " ++ error)
      else
        let song_url := song_url_of song_input in
        let song_title := song_title_of uid (the_path filename) in
        conn <- get_db_connection env ;;
        conn' <- execute_insert env conn (mkRow uid name song_title song_url) ;;
        commit env conn' ;;
        close conn' ;;
        os_remove (the_path filename) ;;
        reply_text ("Added '" ++ song_title ++ "' to '" ++ name ++ "'.")
  end.

Definition newline : string := String (ascii_of_nat 10) EmptyString.

(** [f"- {song['song_title']} ({song['song_url']})"] *)
Definition song_line (song : string * string) : string :=
  "- " ++ fst song ++ " (" ++ snd song ++ ")".

Definition view_playlist (env : Env) (uid : Z) (args : list string) : M unit :=
  match args with
  | [] => reply_text "Usage: /view_playlist <name>"
  | _ =>
      let name := PyStr.join " " args in
      conn <- get_db_connection env ;;
      songs <- execute_select env conn uid name ;;
      close conn ;;
      match songs with
      | [] => reply_text ("No songs in '" ++ name ++ "'.")
      | _ =>
          reply_text ("Playlist '" ++ name ++ "':" ++ newline
                      ++ PyStr.join newline (map song_line songs))
      end
  end.

Definition delete_playlist (env : Env) (uid : Z) (args : list string) : M unit :=
  match args with
  | [] => reply_text "Usage: /delete_playlist <name>"
  | _ =>
      let name := PyStr.join " " args in
      conn <- get_db_connection env ;;
      conn' <- execute_delete env conn uid name ;;
      commit env conn' ;;
      close conn' ;;
      reply_text ("Playlist '" ++ name ++ "' deleted.")
  end.

Definition start : M unit :=
  reply_text ("Welcome! Send a YouTube link or song name to download audio."
              ++ newline ++ "Commands:"
              ++ newline ++ "/create_playlist <name>"
              ++ newline ++ "/add_to_playlist <playlist_name> <song_link_or_name>"
              ++ newline ++ "/view_playlist <name>"
              ++ newline ++ "/delete_playlist <name>").

(** *** Dispatch, as [main] registers the handlers *)

Inductive Command := CmdStart | CmdCreate | CmdAdd | CmdView | CmdDelete.

(** An inbound update: a text message that is not a command, or a command
    with [context.args]. *)
Inductive Inbound :=
| BareText (text : string)
| Cmd (c : Command) (args : list string).

Definition handle (env : Env) (uid : Z) (u : Inbound) : M unit :=
  match u with
  | BareText text => handle_message env uid text
  | Cmd CmdStart _ => start
  | Cmd CmdCreate args => create_playlist env uid args
  | Cmd CmdAdd args => add_to_playlist env uid args
  | Cmd CmdView args => view_playlist env uid args
  | Cmd CmdDelete args => delete_playlist env uid args
  end.

(** [context.args] as the transport's command handler computes it: the
    message text split on whitespace, without the command itself. *)
Definition command_args (message_text : string) : list string :=
  tl (PyStr.split_ws message_text).

(** *** Names for the outcomes of a run *)

(** No psycopg2 call fails for a reason other than a unique violation. *)
Definition store_healthy (env : Env) : Prop :=
  connect_fault env = None /\ execute_fault env = None
  /\ commit_fault env = None.

(** The value [download_audio] produces, read off the run of yt_dlp. *)
Definition resolved (env : Env) (url_or_query : string) (uid : Z)
  : option string * string :=
  match ydl_result (ydl_extract_info env url_or_query
                      (negb (PyStr.startswith url_or_query "http")) uid) with
  | inl (_, m) => (None, m)
  | inr None => (None, "'NoneType' object has no attribute 'get'")
  | inr (Some i) =>
      (Some (PyStr.replace (PyStr.replace (info_filename i) ".webm" ".mp3")
                           ".m4a" ".mp3"),
       match info_title i with
       | Some t => t
       | None => "Unknown"
       end)
  end.

(** The world [download_audio] leaves: the run of yt_dlp has changed the
    files on disk. *)
Definition downloaded (env : Env) (url_or_query : string) (uid : Z) (w : World)
  : World :=
  mkWorld (db w)
          (files_after (ydl_extract_info env url_or_query
                          (negb (PyStr.startswith url_or_query "http")) uid)
                       (files w))
          (outbox w).

Definition sent (w : World) (r : Reply) : World :=
  mkWorld (db w) (files w) (outbox w ++ [r]).

Definition removed (path : string) (w : World) : World :=
  mkWorld (db w) (filter (fun f => negb (String.eqb path f)) (files w)) (outbox w).

Definition stored (t : Table) (w : World) : World :=
  mkWorld t (files w) (outbox w).

(** The text [view_playlist] answers with. *)
Definition view_text (name : string) (songs : list (string * string)) : string :=
  match songs with
  | [] => "No songs in '" ++ name ++ "'."
  | _ => "Playlist '" ++ name ++ "':" ++ newline
         ++ PyStr.join newline (map song_line songs)
  end.

(** The notice [handle_message] sends before it calls the resolver. *)
Definition downloading : Reply := ReplyText "Downloading... Please wait.".

(** What has to hold for the store write of an add command to go through
    once the resolver has produced a file name: the key is new, and the
    file is on disk for [os.remove]. *)
Definition add_goes_through (env : Env) (uid : Z) (u : Inbound) (w : World)
  : Prop :=
  match u with
  | Cmd CmdAdd (name :: x :: rest) =>
      let q := PyStr.join " " (x :: rest) in
      truthy (fst (resolved env q uid)) = true ->
      has_key (uid, name, song_url_of q) (db w) = false
      /\ file_exists (the_path (fst (resolved env q uid)))
                     (downloaded env q uid w) = true
  | _ => True
  end.

(** Two worlds that one owner cannot tell apart: the same rows of that
    owner, the same files, the same replies so far. *)
Definition agree (uid : Z) (w1 w2 : World) : Prop :=
  rows_of uid (db w1) = rows_of uid (db w2)
  /\ files w1 = files w2 /\ outbox w1 = outbox w2.

(** *** Sample collaborators and worlds *)

(** yt_dlp resolves every request to one mp3 of owner 1. *)
Definition ydl_song : string -> bool -> Z -> YdlOutcome :=
  fun _ _ _ =>
    mkYdl ["/tmp/1_Song.mp3"] []
          (inr (Some (mkInfo (Some "Song") "/tmp/1_Song.webm"))).

(** yt_dlp fails on every request. *)
Definition ydl_down : string -> bool -> Z -> YdlOutcome :=
  fun _ _ _ => mkYdl [] [] (inl (NetworkError, "Unable to download webpage")).

Definition env_ok : Env := mkEnv ydl_song None None None None (fun _ => O).

Definition env_no_db : Env :=
  mkEnv ydl_song (Some "connection refused") None None None (fun _ => O).

Definition env_no_delivery : Env :=
  mkEnv ydl_song None None None (Some "Timed out") (fun _ => O).

Definition env_net_down : Env :=
  mkEnv ydl_down None None None None (fun _ => O).

Definition empty_world : World := mkWorld [] [] [].

Definition chill_track : Row :=
  mkRow 1 "Chill" "Song" "https://example/track1".

(** *** The polling loop of [main] *)

(** One update as the loop sees it: how the collaborators behave while it
    is handled, who sent it, and what was sent. *)
Definition Event : Type := Env * Z * Inbound.

(** [application.run_polling()]: the updates are handled one after the
    other; what a handler raises is logged by the library and the loop
    goes on with the world the handler left. *)
Fixpoint run_polling (events : list Event) (w : World) : World :=
  match events with
  | [] => w
  | (env, uid, u) :: rest => run_polling rest (snd (handle env uid u w))
  end.

(** [main()]: [init_db()], then the loop. *)
Definition main (store : option Table) (events : list Event) : World :=
  match init_db store with
  | Some t => run_polling events (mkWorld t [] [])
  | None => mkWorld [] [] []
  end.

(** The playlist a command addresses. *)
Definition target_name (c : Command) (args : list string) : string :=
  match c with
  | CmdAdd => hd "" args
  | _ => PyStr.join " " args
  end.

(** What the handler of an update asks the resolver for, if anything. *)
Definition resolver_query (u : Inbound) : option string :=
  match u with
  | BareText raw =>
      if String.eqb (PyStr.strip raw) "" then None else Some (PyStr.strip raw)
  | Cmd CmdAdd (_ :: x :: rest) => Some (PyStr.join " " (x :: rest))
  | _ => None
  end.

(** The run of yt_dlp for an update deletes the file [g]. *)
Definition removed_by_resolver (env : Env) (uid : Z) (u : Inbound) (g : string)
  : bool :=
  match resolver_query u with
  | Some q =>
      existsb (String.eqb g)
        (ydl_removed (ydl_extract_info env q
                        (negb (PyStr.startswith q "http")) uid))
  | None => false
  end.

(** The file name an add command passes to [os.remove], [""] for the
    other updates and when the resolver fails. *)
Definition resolved_name (env : Env) (uid : Z) (u : Inbound) : string :=
  match u with
  | Cmd CmdAdd (_ :: x :: rest) =>
      the_path (fst (resolved env (PyStr.join " " (x :: rest)) uid))
  | _ => ""
  end.

(** Only rows with an empty title have an empty url. *)
Definition empty_url_is_sentinel (t : Table) : Prop :=
  forall r, In r t -> song_url r = "" -> song_title r = "".

(** [c in s] *)
Fixpoint has_char (c : ascii) (s : string) : bool :=
  match s with
  | EmptyString => false
  | String d s' => Ascii.eqb d c || has_char c s'
  end.

(** yt_dlp reports a file name with an extension the resolver does not
    rewrite, and leaves the transcoded mp3 beside it. *)
Definition ydl_opus : string -> bool -> Z -> YdlOutcome :=
  fun _ _ _ =>
    mkYdl ["/tmp/1_Song.mp3"] []
          (inr (Some (mkInfo (Some "Song") "/tmp/1_Song.opus"))).

Definition env_opus : Env := mkEnv ydl_opus None None None None (fun _ => O).

(** yt_dlp resolves, for owner 1, a video titled "1_.mp3": the title
    derived from the file name is empty. *)
Definition ydl_untitled : string -> bool -> Z -> YdlOutcome :=
  fun _ _ _ =>
    mkYdl ["/tmp/1_1_.mp3.mp3"] ["/tmp/1_1_.mp3.webm"]
          (inr (Some (mkInfo (Some "1_.mp3") "/tmp/1_1_.mp3.webm"))).

Definition env_untitled : Env :=
  mkEnv ydl_untitled None None None None (fun _ => O).

(** The store returns the rows of a [SELECT] last row first. *)
Definition env_last_first : Env :=
  mkEnv ydl_song None None None None (fun n => n).

(** The text of a message that is one no-break space, U+00A0. *)
Definition nbsp : string :=
  String (ascii_of_nat 194) (String (ascii_of_nat 160) EmptyString).

(* ================================================================= *)
(** ** Facts about strings *)

Module PyStrFacts.
Import PyStr.

Lemma string_app_assoc (a b c : string) : ((a ++ b) ++ c = a ++ (b ++ c))%string.
Proof. induction a as [|x a IH]; cbn; [reflexivity|now rewrite IH]. Qed.

Lemma string_app_nil_r (a : string) : (a ++ "" = a)%string.
Proof. induction a as [|x a IH]; cbn; [reflexivity|now rewrite IH]. Qed.

Lemma string_length_app (a b : string) :
  String.length (a ++ b) = (String.length a + String.length b)%nat.
Proof. induction a as [|x a IH]; cbn; [reflexivity|now rewrite IH]. Qed.

(** *** The space among the whitespace characters *)

Lemma ws_len_space r : ws_len (String " " r) = 1%nat.
Proof. reflexivity. Qed.

Lemma ws_len_zero_not_space c r :
  ws_len (String c r) = 0%nat -> Ascii.eqb c " " = false.
Proof.
  intros H. destruct (Ascii.eqb c " ") eqn:E; [|reflexivity].
  apply Ascii.eqb_eq in E. subst c. rewrite ws_len_space in H. discriminate H.
Qed.

Lemma ws2_space_r c : ws2 c " " = false.
Proof. unfold ws2. apply andb_false_r. Qed.

Lemma ws3_space_mid c1 c3 : ws3 c1 " " c3 = false.
Proof.
  unfold ws3. cbv zeta. change (nat_of_ascii " ") with 32%nat.
  cbn [Nat.eqb]. now rewrite !andb_false_r.
Qed.

Lemma ws3_space_r c1 c2 : ws3 c1 c2 " " = false.
Proof.
  unfold ws3. cbv zeta. change (nat_of_ascii " ") with 32%nat.
  cbn [Nat.eqb Nat.leb andb orb]. now rewrite !andb_false_r.
Qed.

(** A whitespace character found in [a] is found in [a ++ b]. *)
Lemma ws_len_app_zero a b : ws_len (a ++ b) = 0%nat -> ws_len a = 0%nat.
Proof.
  destruct a as [|c1 [|c2 [|c3 a]]]; cbn [append ws_len]; auto.
  - destruct (ws1 c1); [discriminate|reflexivity].
  - destruct (ws1 c1); [discriminate|].
    destruct (ws2 c1 c2); [discriminate|reflexivity].
Qed.

(** No whitespace character begins in [a] and ends in what follows, when
    what follows is nothing or begins with a space. *)
Lemma ws_len_before_space a rest :
  a <> "" -> ws_len a = 0%nat ->
  rest = "" \/ (exists r, rest = String " " r) ->
  ws_len (a ++ rest) = 0%nat.
Proof.
  intros Ha H [->|[r ->]]; [now rewrite string_app_nil_r|].
  destruct a as [|c1 [|c2 [|c3 a]]]; [congruence| | |exact H];
    cbn [append ws_len] in *.
  - destruct (ws1 c1); [discriminate|]. rewrite ws2_space_r.
    destruct r; [reflexivity|]. now rewrite ws3_space_mid.
  - destruct (ws1 c1); [discriminate|].
    destruct (ws2 c1 c2); [discriminate|]. now rewrite ws3_space_r.
Qed.

Lemma has_space_app s1 s2 :
  has_space (s1 ++ s2) = has_space s1 || has_space s2.
Proof.
  induction s1 as [|c s1 IH]; cbn; [reflexivity|].
  now rewrite IH, orb_assoc.
Qed.



(** *** The tokens of [str.split()] *)

(** No token holds a space. *)
Lemma split_ws_from_no_space s : forall cur skip tok,
  has_space cur = false ->
  In tok (split_ws_from cur skip s) -> has_space tok = false.
Proof.
  induction s as [|c s IH]; intros cur skip tok Hcur Hin;
    cbn [split_ws_from] in Hin.
  - destruct (String.eqb cur ""); [destruct Hin|].
    destruct Hin as [<-|[]]. exact Hcur.
  - destruct skip as [|k]; [|now apply (IH cur k tok)].
    destruct (ws_len (String c s)) as [|k] eqn:E.
    + apply (IH (cur ++ String c "")%string 0%nat tok); [|exact Hin].
      rewrite has_space_app, Hcur. cbn.
      now rewrite (ws_len_zero_not_space c s E).
    + destruct (String.eqb cur "").
      * now apply (IH "" k tok).
      * destruct Hin as [<-|Hin]; [exact Hcur|now apply (IH "" k tok)].
Qed.

(** No token is empty. *)
Lemma split_ws_from_nonempty s : forall cur skip tok,
  In tok (split_ws_from cur skip s) -> tok <> "".
Proof.
  induction s as [|c s IH]; intros cur skip tok Hin; cbn [split_ws_from] in Hin.
  - destruct (String.eqb cur "") eqn:E; [destruct Hin|].
    destruct Hin as [<-|[]]. now apply String.eqb_neq.
  - destruct skip as [|k]; [|now apply (IH cur k tok)].
    destruct (ws_len (String c s)) as [|k].
    + now apply (IH (cur ++ String c "")%string 0%nat tok).
    + destruct (String.eqb cur "") eqn:E; [now apply (IH "" k tok)|].
      destruct Hin as [<-|Hin]; [now apply String.eqb_neq|now apply (IH "" k tok)].
Qed.

Lemma no_ws_prefix_snoc cur c s :
  no_ws_prefix (String.length cur) (cur ++ String c s) = true ->
  ws_len (String c s) = 0%nat ->
  no_ws_prefix (String.length (cur ++ String c ""))
               ((cur ++ String c "") ++ s) = true.
Proof.
  intros H E. rewrite string_app_assoc. cbn [append].
  induction cur as [|d cur IH].
  - cbn [append String.length no_ws_prefix]. now rewrite E.
  - cbn [append String.length no_ws_prefix] in *.
    apply andb_prop in H. destruct H as [H1 H2].
    rewrite H1. cbn [andb]. now apply IH.
Qed.

Lemma no_ws_prefix_no_ws cur s :
  no_ws_prefix (String.length cur) (cur ++ s) = true -> no_ws cur = true.
Proof.
  induction cur as [|d cur IH]; [reflexivity|].
  cbn [append String.length no_ws_prefix no_ws]. intros H.
  apply andb_prop in H. destruct H as [H1 H2].
  apply Nat.eqb_eq in H1.
  change (String d (cur ++ s)) with (String d cur ++ s)%string in H1.
  rewrite (ws_len_app_zero _ _ H1). cbn [Nat.eqb andb]. now apply IH.
Qed.

(** No whitespace character starts in a token. *)
Lemma split_ws_from_no_ws s : forall cur skip tok,
  (skip <> 0%nat -> cur = "") ->
  no_ws_prefix (String.length cur) (cur ++ s) = true ->
  In tok (split_ws_from cur skip s) -> no_ws tok = true.
Proof.
  induction s as [|c s IH]; intros cur skip tok Hskip Hcur Hin;
    cbn [split_ws_from] in Hin.
  - destruct (String.eqb cur ""); [destruct Hin|].
    destruct Hin as [<-|[]]. now apply (no_ws_prefix_no_ws cur "").
  - destruct skip as [|k].
    + destruct (ws_len (String c s)) as [|k] eqn:E.
      * apply (IH (cur ++ String c "")%string 0%nat tok);
          [congruence| |exact Hin].
        now apply no_ws_prefix_snoc.
      * assert (Hrest : In tok (split_ws_from "" k s) -> no_ws tok = true)
          by (apply IH; [reflexivity|reflexivity]).
        destruct (String.eqb cur ""); [now apply Hrest|].
        destruct Hin as [<-|Hin]; [|now apply Hrest].
        now apply (no_ws_prefix_no_ws cur (String c s)).
    + rewrite (Hskip ltac:(discriminate)) in Hin.
      apply (IH "" k tok); [reflexivity|reflexivity|exact Hin].
Qed.

Lemma split_ws_tokens s tok :
  In tok (split_ws s) ->
  tok <> "" /\ no_ws tok = true /\ has_space tok = false.
Proof.
  unfold split_ws. intros H. split; [|split].
  - now apply (split_ws_from_nonempty s "" 0%nat).
  - apply (split_ws_from_no_ws s "" 0%nat tok); [congruence|reflexivity|exact H].
  - now apply (split_ws_from_no_space s "" 0%nat).
Qed.

(** *** Joining and splitting again *)

Lemma split_ws_from_token tok : forall cur rest,
  no_ws tok = true ->
  rest = "" \/ (exists r, rest = String " " r) ->
  split_ws_from cur 0 (tok ++ rest) = split_ws_from (cur ++ tok) 0 rest.
Proof.
  induction tok as [|c tok IH]; intros cur rest H Hrest.
  - cbn. now rewrite string_app_nil_r.
  - cbn [no_ws] in H. apply andb_prop in H. destruct H as [Hc Ht].
    apply Nat.eqb_eq in Hc.
    cbn [append split_ws_from].
    change (String c (tok ++ rest)) with (String c tok ++ rest)%string.
    rewrite (ws_len_before_space (String c tok) rest); auto; [|discriminate].
    rewrite (IH _ rest Ht Hrest). now rewrite string_app_assoc.
Qed.

Lemma split_ws_from_space cur rest :
  cur <> "" ->
  split_ws_from cur 0 (String " " rest) = cur :: split_ws_from "" 0 rest.
Proof.
  intros H. apply String.eqb_neq in H.
  cbn [split_ws_from]. rewrite ws_len_space. now rewrite H.
Qed.

Lemma split_ws_join xs :
  (forall x, In x xs -> x <> "" /\ no_ws x = true) ->
  split_ws (join " " xs) = xs.
Proof.
  unfold split_ws. induction xs as [|x [|y l] IH]; intros H.
  - reflexivity.
  - destruct (H x (or_introl eq_refl)) as [Hne Hws].
    cbn [join]. rewrite <- (string_app_nil_r x) at 1.
    rewrite (split_ws_from_token x "" "" Hws) by now left.
    cbn [append split_ws_from].
    apply String.eqb_neq in Hne. now rewrite Hne.
  - destruct (H x (or_introl eq_refl)) as [Hne Hws].
    change (join " " (x :: y :: l))
      with (x ++ String " " (join " " (y :: l)))%string.
    rewrite (split_ws_from_token x "" _ Hws) by (right; eexists; reflexivity).
    cbn [append].
    rewrite (split_ws_from_space x _ Hne). f_equal.
    apply IH. intros z Hz. apply H. now right.
Qed.

(** *** Names that no arguments spell *)




(** *** Texts of whitespace *)

Lemma all_ws_lstrip_from s : forall skip,
  all_ws_from 0 (lstrip_from skip s) = all_ws_from skip s.
Proof.
  induction s as [|c s IH]; intros skip; [reflexivity|].
  cbn [lstrip_from]. destruct skip as [|k].
  - destruct (ws_len (String c s)) as [|k] eqn:E.
    + reflexivity.
    + rewrite IH. cbn [all_ws_from]. now rewrite E.
  - rewrite IH. reflexivity.
Qed.

Lemma rstrip_empty_iff s : rstrip s = "" <-> all_ws s = true.
Proof.
  destruct s as [|c s]; cbn [rstrip]; [split; reflexivity|].
  destruct (all_ws (String c s)); split; intros H;
    try reflexivity; discriminate H.
Qed.

Lemma strip_empty_iff s : strip s = "" <-> all_ws s = true.
Proof.
  unfold strip. rewrite rstrip_empty_iff. unfold all_ws, lstrip.
  now rewrite all_ws_lstrip_from.
Qed.

End PyStrFacts.

(* ================================================================= *)
(** ** Facts about the table *)

Section TableFacts.

Lemma key_eqb_eq k1 k2 : key_eqb k1 k2 = true <-> k1 = k2.
Proof.
  destruct k1 as [[u1 n1] l1], k2 as [[u2 n2] l2]. unfold key_eqb.
  rewrite !andb_true_iff, Z.eqb_eq, !String.eqb_eq.
  split; [intros [[-> ->] ->]; reflexivity|intros E; now inversion E].
Qed.

Lemma has_key_true k t :
  has_key k t = true <-> exists r, In r t /\ primary_key r = k.
Proof.
  unfold has_key. rewrite existsb_exists.
  split; intros [r [Hin Hk]]; exists r; split; auto; now apply key_eqb_eq.
Qed.

Lemma has_key_false k t :
  has_key k t = false <-> forall r, In r t -> primary_key r <> k.
Proof.
  split.
  - intros H r Hin Hk.
    assert (has_key k t = true) by (apply has_key_true; eauto). congruence.
  - intros H. destruct (has_key k t) eqn:E; [|reflexivity].
    apply has_key_true in E. destruct E as [r [Hin Hk]]. now elim (H r).
Qed.

Lemma has_key_in_map k t : has_key k t = true <-> In k (map primary_key t).
Proof.
  rewrite has_key_true, in_map_iff.
  split; intros [r [H1 H2]]; exists r; auto.
Qed.

(** A successful insert appends the row and keeps the keys distinct. *)
Lemma sql_insert_Some r t t' :
  sql_insert r t = Some t' -> t' = t ++ [r] /\ has_key (primary_key r) t = false.
Proof.
  unfold sql_insert. destruct (has_key (primary_key r) t); [discriminate|].
  intros E. inversion E. auto.
Qed.

Lemma sql_insert_None r t :
  sql_insert r t = None <-> has_key (primary_key r) t = true.
Proof.
  unfold sql_insert. destruct (has_key (primary_key r) t); split; congruence.
Qed.

Lemma sql_insert_key_unique r t t' :
  key_unique t -> sql_insert r t = Some t' -> key_unique t'.
Proof.
  unfold key_unique. intros Hu Hi.
  apply sql_insert_Some in Hi. destruct Hi as [-> Hk].
  rewrite map_app. simpl.
  apply NoDup_app; [exact Hu|constructor; [intros []|constructor]|].
  intros k Hin1 [<-|[]].
  apply has_key_in_map in Hin1. congruence.
Qed.

Lemma sql_delete_key_unique uid name t :
  key_unique t -> key_unique (sql_delete uid name t).
Proof.
  unfold key_unique, sql_delete. induction t as [|r t IH]; simpl; [auto|].
  intros Hu. inversion Hu as [|? ? Hn Hu']; subst.
  destruct (negb (in_playlist uid name r)); [|auto].
  simpl. constructor; [|auto].
  intros Hin. apply Hn. apply in_map_iff in Hin.
  destruct Hin as [x [Hx Hf]]. apply filter_In in Hf.
  apply in_map_iff. exists x. tauto.
Qed.

Lemma filter_filter {A} (f g : A -> bool) (l : list A) :
  filter f (filter g l) = filter (fun x => g x && f x) l.
Proof.
  induction l as [|x l IH]; simpl; [reflexivity|].
  destruct (g x); simpl; [destruct (f x)|]; now rewrite IH.
Qed.

Lemma has_key_rows_of uid name url t :
  has_key (uid, name, url) (rows_of uid t) = has_key (uid, name, url) t.
Proof.
  unfold has_key, rows_of. induction t as [|r t IH]; [reflexivity|].
  cbn [filter existsb].
  destruct (Z.eqb (user_id r) uid) eqn:E; cbn [existsb]; rewrite IH; [reflexivity|].
  unfold primary_key, key_eqb. rewrite E. reflexivity.
Qed.

Lemma sql_select_songs_rows_of uid name t :
  sql_select_songs uid name (rows_of uid t) = sql_select_songs uid name t.
Proof.
  unfold sql_select_songs, rows_of. f_equal. rewrite filter_filter.
  apply filter_ext. intros r. unfold in_playlist.
  destruct (Z.eqb (user_id r) uid); reflexivity.
Qed.

Lemma rows_of_sql_delete uid name t :
  rows_of uid (sql_delete uid name t) = sql_delete uid name (rows_of uid t).
Proof.
  unfold rows_of, sql_delete. rewrite !filter_filter.
  apply filter_ext. intros r. apply andb_comm.
Qed.

Lemma rows_of_sql_delete_other a b name t :
  a <> b -> rows_of b (sql_delete a name t) = rows_of b t.
Proof.
  intros Hab. unfold rows_of, sql_delete. rewrite filter_filter.
  apply filter_ext. intros r. unfold in_playlist.
  destruct (Z.eqb (user_id r) b) eqn:Eb; [|apply andb_false_r].
  apply Z.eqb_eq in Eb.
  replace (Z.eqb (user_id r) a) with false; [reflexivity|].
  symmetry. apply Z.eqb_neq. congruence.
Qed.

Lemma rows_of_app uid t1 t2 : rows_of uid (t1 ++ t2) = rows_of uid t1 ++ rows_of uid t2.
Proof. apply filter_app. Qed.

Lemma rows_of_insert_other a b r t :
  a <> b -> user_id r = a -> rows_of b (t ++ [r]) = rows_of b t.
Proof.
  intros Hab Hr. rewrite rows_of_app. simpl.
  replace (Z.eqb (user_id r) b) with false; [apply app_nil_r|].
  symmetry. apply Z.eqb_neq. congruence.
Qed.

Lemma rows_of_insert_own a r t :
  user_id r = a -> rows_of a (t ++ [r]) = rows_of a t ++ [r].
Proof.
  intros Hr. rewrite rows_of_app. simpl. now rewrite Hr, Z.eqb_refl.
Qed.

(** The server returns the selected rows, each once, in some order. *)
Lemma insert_at_permutation {A} n (x : A) l : Permutation (insert_at n x l) (x :: l).
Proof.
  revert n. induction l as [|y l IH]; intros n.
  - destruct n; reflexivity.
  - destruct n as [|k]; cbn [insert_at]; [reflexivity|].
    rewrite IH. apply perm_swap.
Qed.

Lemma arrange_permutation {A} pos (l : list A) : Permutation (arrange pos l) l.
Proof.
  induction l as [|x l IH]; cbn [arrange]; [reflexivity|].
  rewrite insert_at_permutation. now constructor.
Qed.

Lemma arrange_nil_iff {A} pos (l : list A) : arrange pos l = [] <-> l = [].
Proof.
  split; intros H.
  - apply Permutation_nil. rewrite <- H. apply arrange_permutation.
  - now subst l.
Qed.

Lemma arrange_in {A} pos (l : list A) x : In x (arrange pos l) <-> In x l.
Proof.
  split; apply Permutation_in;
    [apply arrange_permutation|symmetry; apply arrange_permutation].
Qed.

End TableFacts.

(* ================================================================= *)
(** ** Runs of the resolver and of the handlers *)

(** Case analysis on everything a run branches on. *)
Ltac run_cases :=
  repeat match goal with
         | |- context [match ?x with _ => _ end] =>
             match type of x with
             | option _ => destruct x eqn:?
             | bool => destruct x eqn:?
             end
         end.

(** Unfolds the plumbing of a computation, not the SQL statements. *)
Ltac step :=
  unfold bind, try_except, ret, raise, close, with_open, get_db_connection,
    execute_insert, execute_select, execute_delete, commit, reply_text,
    reply_audio, os_path_exists, os_remove, sent, stored, removed.

Section Runs.

Variable env : Env.
Variable uid : Z.

(** [download_audio] always returns: its value is [resolved], its only
    effect the files of the run. *)
Lemma download_audio_run q w :
  download_audio env q uid w = (Ret (resolved env q uid), downloaded env q uid w).
Proof.
  unfold download_audio, resolved, downloaded, extract_info, info_get_title,
    prepare_filename.
  step.
  destruct (ydl_result _) as [[cause m]|[i|]]; reflexivity.
Qed.

Lemma create_playlist_fresh a rest w :
  store_healthy env ->
  has_key (uid, PyStr.join " " (a :: rest), "") (db w) = false ->
  create_playlist env uid (a :: rest) w =
  (Ret tt,
   sent (stored (db w ++ [sentinel uid (PyStr.join " " (a :: rest))]) w)
        (ReplyText ("Playlist '" ++ PyStr.join " " (a :: rest) ++ "' created."))).
Proof.
  intros (Hc & He & Hm) Hk.
  unfold create_playlist. step. rewrite Hc, He.
  unfold sql_insert, primary_key. cbn [pending user_id playlist_name song_url].
  rewrite Hk, Hm. reflexivity.
Qed.

Lemma create_playlist_taken a rest w :
  connect_fault env = None -> execute_fault env = None ->
  has_key (uid, PyStr.join " " (a :: rest), "") (db w) = true ->
  create_playlist env uid (a :: rest) w =
  (Ret tt,
   sent w (ReplyText ("Playlist '" ++ PyStr.join " " (a :: rest)
                      ++ "' already exists."))).
Proof.
  intros Hc He Hk.
  unfold create_playlist. step. rewrite Hc, He.
  unfold sql_insert, primary_key. cbn [pending user_id playlist_name song_url].
  rewrite Hk. reflexivity.
Qed.

Lemma view_playlist_run a rest w :
  connect_fault env = None -> execute_fault env = None ->
  view_playlist env uid (a :: rest) w =
  (Ret tt,
   sent w (ReplyText (view_text (PyStr.join " " (a :: rest))
                        (arrange (row_order env)
                           (sql_select_songs uid (PyStr.join " " (a :: rest))
                              (db w)))))).
Proof.
  intros Hc He.
  unfold view_playlist. step. rewrite Hc, He.
  cbn [pending]. unfold view_text.
  destruct (arrange _ _); reflexivity.
Qed.

Lemma delete_playlist_run a rest w :
  store_healthy env ->
  delete_playlist env uid (a :: rest) w =
  (Ret tt,
   sent (stored (sql_delete uid (PyStr.join " " (a :: rest)) (db w)) w)
        (ReplyText ("Playlist '" ++ PyStr.join " " (a :: rest) ++ "' deleted."))).
Proof.
  intros (Hc & He & Hm).
  unfold delete_playlist. step. rewrite Hc, He, Hm. reflexivity.
Qed.

(** A fault at connection time leaves every store handler without a reply. *)
Lemma connect_fault_raises m c a rest w :
  connect_fault env = Some m ->
  c = CmdCreate \/ c = CmdView \/ c = CmdDelete ->
  handle env uid (Cmd c (a :: rest)) w = (Raise (mkExn OperationalError m), w).
Proof.
  intros Hc Hor. destruct Hor as [E|[E|E]]; subst c;
    unfold handle, create_playlist, view_playlist, delete_playlist; step;
    rewrite Hc; reflexivity.
Qed.

(** *** [add_to_playlist] *)

Lemma add_to_playlist_usage args w :
  (length args < 2)%nat ->
  add_to_playlist env uid args w =
  (Ret tt, sent w (ReplyText
     "Usage: /add_to_playlist <playlist_name> <song_link_or_name>")).
Proof.
  intros H. destruct args as [|a [|b rest]]; simpl in H; try lia; reflexivity.
Qed.

Lemma add_to_playlist_unresolved name x rest w :
  truthy (fst (resolved env (PyStr.join " " (x :: rest)) uid)) = false ->
  add_to_playlist env uid (name :: x :: rest) w =
  (Ret tt,
   sent (downloaded env (PyStr.join " " (x :: rest)) uid w)
        (ReplyText ("Failed to add: "
                    ++ snd (resolved env (PyStr.join " " (x :: rest)) uid)))).
Proof.
  intros Ht. unfold add_to_playlist.
  unfold bind at 1. rewrite download_audio_run.
  destruct (resolved env _ uid) as [f e]. simpl in Ht. rewrite Ht.
  reflexivity.
Qed.

(** The insert hits an existing key: [IntegrityError] leaves the handler,
    after the download and before any reply or cleanup. *)
Lemma add_to_playlist_duplicate name x rest w :
  truthy (fst (resolved env (PyStr.join " " (x :: rest)) uid)) = true ->
  connect_fault env = None -> execute_fault env = None ->
  has_key (uid, name, song_url_of (PyStr.join " " (x :: rest))) (db w) = true ->
  add_to_playlist env uid (name :: x :: rest) w =
  (Raise (mkExn IntegrityError "duplicate key value violates unique constraint"),
   downloaded env (PyStr.join " " (x :: rest)) uid w).
Proof.
  intros Ht Hc He Hk. unfold add_to_playlist.
  unfold bind at 1. rewrite download_audio_run.
  destruct (resolved env _ uid) as [f e]. simpl in Ht. rewrite Ht.
  cbn [negb]. step. rewrite Hc, He.
  unfold sql_insert, primary_key.
  cbn [pending user_id playlist_name song_url db downloaded].
  rewrite Hk. reflexivity.
Qed.

(** The store write goes through: the row is committed, then the file is
    removed, then the reply is sent. *)
Lemma add_to_playlist_stored name x rest w :
  let q := PyStr.join " " (x :: rest) in
  let f := the_path (fst (resolved env q uid)) in
  let row := mkRow uid name (song_title_of uid f) (song_url_of q) in
  truthy (fst (resolved env q uid)) = true ->
  store_healthy env ->
  has_key (uid, name, song_url_of q) (db w) = false ->
  file_exists f (downloaded env q uid w) = true ->
  add_to_playlist env uid (name :: x :: rest) w =
  (Ret tt,
   sent (removed f (stored (db w ++ [row]) (downloaded env q uid w)))
        (ReplyText ("Added '" ++ song_title_of uid f ++ "' to '" ++ name ++ "'."))).
Proof.
  intros q f row Ht (Hc & He & Hm) Hk Hf. subst q f row.
  unfold add_to_playlist.
  unfold bind at 1. rewrite download_audio_run.
  destruct (resolved env _ uid) as [f e]. simpl in Ht. rewrite Ht.
  cbn [negb fst] in *. step. rewrite Hc, He.
  unfold sql_insert, primary_key.
  cbn [pending user_id playlist_name song_url db downloaded].
  rewrite Hk, Hm. unfold file_exists in *.
  unfold ret. cbn [files downloaded db outbox pending] in *.
  rewrite Hf. reflexivity.
Qed.

(** A store fault after a successful download: no reply, and the file
    stays. *)
Lemma add_to_playlist_connect_fault name x rest w m :
  truthy (fst (resolved env (PyStr.join " " (x :: rest)) uid)) = true ->
  connect_fault env = Some m ->
  add_to_playlist env uid (name :: x :: rest) w =
  (Raise (mkExn OperationalError m),
   downloaded env (PyStr.join " " (x :: rest)) uid w).
Proof.
  intros Ht Hc. unfold add_to_playlist.
  unfold bind at 1. rewrite download_audio_run.
  destruct (resolved env _ uid) as [f e]. simpl in Ht. rewrite Ht.
  cbn [negb]. step. rewrite Hc. reflexivity.
Qed.

(** *** [handle_message] *)

Lemma handle_message_empty raw w :
  PyStr.strip raw = "" ->
  handle_message env uid raw w =
  (Ret tt, sent w (ReplyText "Please send a YouTube link or song name.")).
Proof. intros H. unfold handle_message. rewrite H. reflexivity. Qed.

(** The resolved file is on disk: the call of [Audio] raises inside the
    [with] block, and neither [reply_audio] nor [os.remove] is reached. *)
Lemma handle_message_audio_raises raw w :
  let q := PyStr.strip raw in
  let w1 := downloaded env q uid (sent w downloading) in
  q <> "" ->
  truthy (fst (resolved env q uid)) = true ->
  file_exists (the_path (fst (resolved env q uid))) w1 = true ->
  handle_message env uid raw w
  = (Raise (mkExn TypeError
              "Audio.__init__() got an unexpected keyword argument 'filename'"),
     w1).
Proof.
  intros q w1 Hq Ht Hf. subst q w1.
  unfold handle_message.
  apply String.eqb_neq in Hq. rewrite Hq.
  unfold bind at 1. unfold reply_text at 1.
  unfold bind at 1. rewrite download_audio_run.
  destruct (resolved env _ uid) as [f t]. cbn [fst snd] in *. rewrite Ht.
  step. unfold Audio, raise, file_exists, downloaded, sent, downloading in *.
  cbn [files db outbox] in *. rewrite Hf. reflexivity.
Qed.

Lemma handle_message_failed raw w :
  let q := PyStr.strip raw in
  let w1 := downloaded env q uid (sent w downloading) in
  q <> "" ->
  truthy (fst (resolved env q uid))
  && file_exists (the_path (fst (resolved env q uid))) w1 = false ->
  handle_message env uid raw w =
  (Ret tt, sent w1 (ReplyText ("Failed to download: " ++ snd (resolved env q uid)))).
Proof.
  intros q w1 Hq Hf. subst q w1.
  unfold handle_message.
  apply String.eqb_neq in Hq. rewrite Hq.
  unfold bind at 1. unfold reply_text at 1.
  unfold bind at 1. rewrite download_audio_run.
  destruct (resolved env _ uid) as [f t]. cbn [fst snd] in *.
  step. unfold file_exists, downloaded, sent, downloading in *.
  cbn [files db outbox] in *.
  destruct (truthy f); cbn [andb] in Hf; [|reflexivity].
  cbn [files]. rewrite Hf. reflexivity.
Qed.

(** *** The handlers, branch by branch *)

Lemma create_playlist_unfold x rest w :
  create_playlist env uid (x :: rest) w =
  let name := PyStr.join " " (x :: rest) in
  match connect_fault env with
  | Some m => (Raise (mkExn OperationalError m), w)
  | None =>
  match execute_fault env with
  | Some m => (Raise (mkExn OperationalError m), w)
  | None =>
  if has_key (uid, name, "") (db w)
  then (Ret tt, sent w (ReplyText ("Playlist '" ++ name ++ "' already exists.")))
  else
  match commit_fault env with
  | Some m => (Raise (mkExn OperationalError m), w)
  | None =>
      (Ret tt, sent (stored (db w ++ [sentinel uid name]) w)
                    (ReplyText ("Playlist '" ++ name ++ "' created.")))
  end end end.
Proof.
  cbv zeta. unfold create_playlist. step. unfold ret, raise.
  destruct (connect_fault env); [reflexivity|].
  destruct (execute_fault env); [reflexivity|].
  unfold sql_insert, primary_key.
  cbn [pending user_id playlist_name song_url].
  destruct (has_key _ (db w)); [reflexivity|].
  destruct (commit_fault env); reflexivity.
Qed.

Lemma view_playlist_unfold x rest w :
  view_playlist env uid (x :: rest) w =
  let name := PyStr.join " " (x :: rest) in
  match connect_fault env with
  | Some m => (Raise (mkExn OperationalError m), w)
  | None =>
  match execute_fault env with
  | Some m => (Raise (mkExn OperationalError m), w)
  | None =>
      (Ret tt, sent w (ReplyText
         (view_text name
            (arrange (row_order env) (sql_select_songs uid name (db w))))))
  end end.
Proof.
  cbv zeta. unfold view_playlist. step. unfold ret, raise.
  destruct (connect_fault env); [reflexivity|].
  destruct (execute_fault env); [reflexivity|].
  cbn [pending]. unfold view_text.
  destruct (arrange _ _); reflexivity.
Qed.

Lemma delete_playlist_unfold x rest w :
  delete_playlist env uid (x :: rest) w =
  let name := PyStr.join " " (x :: rest) in
  match connect_fault env with
  | Some m => (Raise (mkExn OperationalError m), w)
  | None =>
  match execute_fault env with
  | Some m => (Raise (mkExn OperationalError m), w)
  | None =>
  match commit_fault env with
  | Some m => (Raise (mkExn OperationalError m), w)
  | None =>
      (Ret tt, sent (stored (sql_delete uid name (db w)) w)
                    (ReplyText ("Playlist '" ++ name ++ "' deleted.")))
  end end end.
Proof.
  cbv zeta. unfold delete_playlist. step. unfold ret, raise.
  destruct (connect_fault env); [reflexivity|].
  destruct (execute_fault env); [reflexivity|].
  destruct (commit_fault env); reflexivity.
Qed.

Lemma handle_message_unfold raw w :
  handle_message env uid raw w =
  let q := PyStr.strip raw in
  let w1 := downloaded env q uid (sent w downloading) in
  let f := the_path (fst (resolved env q uid)) in
  let t := snd (resolved env q uid) in
  if String.eqb q ""
  then (Ret tt, sent w (ReplyText "Please send a YouTube link or song name."))
  else if truthy (fst (resolved env q uid)) && file_exists f w1
  then (Raise (mkExn TypeError
                 "Audio.__init__() got an unexpected keyword argument 'filename'"),
        w1)
  else (Ret tt, sent w1 (ReplyText ("Failed to download: " ++ t))).
Proof.
  cbv zeta.
  destruct (String.eqb (PyStr.strip raw) "") eqn:Eq.
  - apply String.eqb_eq in Eq. now apply handle_message_empty.
  - apply String.eqb_neq in Eq.
    destruct (truthy _ && file_exists _ _) eqn:Ep.
    + apply andb_prop in Ep. destruct Ep as [Ht Hf].
      now apply handle_message_audio_raises.
    + now apply handle_message_failed.
Qed.

Lemma add_to_playlist_unfold name x rest w :
  add_to_playlist env uid (name :: x :: rest) w =
  let q := PyStr.join " " (x :: rest) in
  let w1 := downloaded env q uid w in
  let f := the_path (fst (resolved env q uid)) in
  let row := mkRow uid name (song_title_of uid f) (song_url_of q) in
  if negb (truthy (fst (resolved env q uid)))
  then (Ret tt, sent w1 (ReplyText ("Failed to add: " ++ snd (resolved env q uid))))
  else
    match connect_fault env with
    | Some m => (Raise (mkExn OperationalError m), w1)
    | None =>
    match execute_fault env with
    | Some m => (Raise (mkExn OperationalError m), w1)
    | None =>
    if has_key (uid, name, song_url_of q) (db w)
    then (Raise (mkExn IntegrityError
                   "duplicate key value violates unique constraint"), w1)
    else
    match commit_fault env with
    | Some m => (Raise (mkExn OperationalError m), w1)
    | None =>
    if file_exists f w1
    then (Ret tt,
          sent (removed f (stored (db w ++ [row]) w1))
               (ReplyText ("Added '" ++ song_title_of uid f ++ "' to '"
                           ++ name ++ "'.")))
    else (Raise (mkExn FileNotFoundError
                   ("[Errno 2] No such file or directory: '" ++ f ++ "'")),
          stored (db w ++ [row]) w1)
    end end end.
Proof.
  cbv zeta. unfold add_to_playlist.
  unfold bind at 1. rewrite download_audio_run.
  destruct (resolved env _ uid) as [f e]. cbn [fst snd].
  destruct (truthy f); cbn [negb]; [|reflexivity].
  step. unfold sql_insert, primary_key, file_exists, downloaded.
  unfold ret, raise.
  cbn [pending user_id playlist_name song_url db files outbox].
  destruct (connect_fault env); [reflexivity|].
  destruct (execute_fault env); [reflexivity|].
  cbn [pending].
  destruct (has_key _ (db w)); [reflexivity|].
  destruct (commit_fault env); [reflexivity|].
  cbn [pending db files outbox].
  destruct (existsb _ _); reflexivity.
Qed.

End Runs.

(* ================================================================= *)
(** ** The playlist store *)

Lemma filter_key_absent k t :
  has_key k t = false -> filter (fun r => key_eqb (primary_key r) k) t = [].
Proof.
  unfold has_key. induction t as [|r t IH]; simpl; [reflexivity|].
  intros H. apply orb_false_iff in H. destruct H as [H1 H2].
  rewrite H1. auto.
Qed.

(** C1. A second add of the same (owner, playlist, url) is not answered
    with a duplicate-entry outcome: the first add commits the row, and the
    second one ends with [IntegrityError] leaving the handler, no reply
    sent, the table as the first add left it and the file of the second
    download still on disk. *)
Theorem add_to_playlist_second_add_raises :
  forall env uid name x rest w,
    let q := PyStr.join " " (x :: rest) in
    let f := the_path (fst (resolved env q uid)) in
    let row := mkRow uid name (song_title_of uid f) (song_url_of q) in
    truthy (fst (resolved env q uid)) = true ->
    store_healthy env ->
    has_key (uid, name, song_url_of q) (db w) = false ->
    file_exists f (downloaded env q uid w) = true ->
    let w1 := snd (add_to_playlist env uid (name :: x :: rest) w) in
    let second := add_to_playlist env uid (name :: x :: rest) w1 in
    db w1 = db w ++ [row]
    /\ is_IntegrityError_result (fst second) = true
    /\ db (snd second) = db w1
    /\ outbox (snd second) = outbox w1
    /\ snd second = downloaded env q uid w1.
Proof.
  intros env uid name x rest w q f row Ht Hh Hk Hf w1 second.
  assert (E1 : db w1 = db w ++ [row]).
  { subst w1. rewrite (add_to_playlist_stored env uid name x rest w Ht Hh Hk Hf).
    reflexivity. }
  assert (Hk1 : has_key (uid, name, song_url_of q) (db w1) = true).
  { rewrite E1. apply has_key_true. exists row. split; [|reflexivity].
    apply in_or_app. right. now left. }
  destruct Hh as (Hc & He & Hm).
  subst second.
  rewrite (add_to_playlist_duplicate env uid name x rest w1 Ht Hc He Hk1).
  cbn [fst snd]. repeat split; auto.
Qed.

Lemma add_to_playlist_second_add_raises_witness :
  let args := command_args "/add_to_playlist Chill https://example/track1" in
  let w1 := snd (add_to_playlist env_ok 1 args empty_world) in
  let second := add_to_playlist env_ok 1 args w1 in
  db w1 = [chill_track]
  /\ is_IntegrityError_result (fst second) = true
  /\ db (snd second) = db w1
  /\ outbox (snd second) = outbox w1
  /\ snd second = downloaded env_ok "https://example/track1" 1 w1.
Proof.
  apply (add_to_playlist_second_add_raises env_ok 1 "Chill"
           "https://example/track1" [] empty_world);
    [reflexivity | repeat split | reflexivity | reflexivity].
Defined.

(** C2, as stated, fails: a playlist that holds a song but no sentinel row
    (an add without a prior create) is accepted by [create_playlist],
    which answers "created" and inserts the sentinel. *)
Lemma create_playlist_accepts_playlist_with_song :
  let w := mkWorld [chill_track] [] [] in
  (exists r, In r (db w) /\ in_playlist 1 "Chill" r = true)
  /\ create_playlist env_ok 1 ["Chill"] w =
     (Ret tt,
      mkWorld [chill_track; sentinel 1 "Chill"] []
              [ReplyText "Playlist 'Chill' created."]).
Proof.
  split; [exists chill_track; split; [now left|reflexivity]|reflexivity].
Qed.

(** C2, amended. With a healthy store, [create_playlist] is decided by the
    primary key of the sentinel row alone: when no row has the key
    (owner, name, '') the sentinel is inserted and "created" is answered,
    whatever other rows the playlist holds; when a row has that key the
    table is left as it is and "already exists" is answered.  A second
    identical create right after a first therefore answers "already
    exists" and leaves exactly one row with the sentinel's key. *)
Theorem create_playlist_sentinel_key :
  forall env uid a rest w,
    store_healthy env ->
    let name := PyStr.join " " (a :: rest) in
    let created := ReplyText ("Playlist '" ++ name ++ "' created.") in
    let exists_ := ReplyText ("Playlist '" ++ name ++ "' already exists.") in
    let first := create_playlist env uid (a :: rest) w in
    let second := create_playlist env uid (a :: rest) (snd first) in
    (has_key (uid, name, "") (db w) = true -> first = (Ret tt, sent w exists_))
    /\ (has_key (uid, name, "") (db w) = false ->
        first = (Ret tt, sent (stored (db w ++ [sentinel uid name]) w) created)
        /\ second = (Ret tt, sent (snd first) exists_)
        /\ filter (fun r => key_eqb (primary_key r) (uid, name, ""))
                  (db (snd second)) = [sentinel uid name]).
Proof.
  intros env uid a rest w Hh name created exists_ first second.
  split; intros Hk.
  - destruct Hh as (Hc & He & _). subst first.
    now rewrite (create_playlist_taken env uid a rest w Hc He Hk).
  - assert (E1 : first
              = (Ret tt, sent (stored (db w ++ [sentinel uid name]) w) created))
      by (subst first; now rewrite (create_playlist_fresh env uid a rest w Hh Hk)).
    assert (Hk1 : has_key (uid, name, "") (db (snd first)) = true).
    { rewrite E1. cbn [snd sent stored db]. apply has_key_true.
      exists (sentinel uid name). split; [|reflexivity].
      apply in_or_app. right. now left. }
    assert (E2 : second = (Ret tt, sent (snd first) exists_)).
    { destruct Hh as (Hc & He & _). subst second.
      now rewrite (create_playlist_taken env uid a rest (snd first) Hc He Hk1). }
    repeat split; auto.
    rewrite E2, E1. cbn [snd sent stored db].
    rewrite filter_app, (filter_key_absent _ _ Hk). cbn [filter app].
    replace (key_eqb (primary_key (sentinel uid name)) (uid, name, "")) with true;
      [reflexivity|].
    symmetry. now apply key_eqb_eq.
Qed.

Lemma create_playlist_sentinel_key_witness :
  let first := create_playlist env_ok 1 ["Chill"] empty_world in
  let second := create_playlist env_ok 1 ["Chill"] (snd first) in
  first = (Ret tt, mkWorld [sentinel 1 "Chill"] []
                           [ReplyText "Playlist 'Chill' created."])
  /\ second = (Ret tt, sent (snd first)
                            (ReplyText "Playlist 'Chill' already exists."))
  /\ filter (fun r => key_eqb (primary_key r) (1%Z, "Chill", ""))
            (db (snd second)) = [sentinel 1 "Chill"].
Proof.
  apply (create_playlist_sentinel_key env_ok 1 "Chill" [] empty_world);
    [repeat split | reflexivity].
Defined.

Lemma length_filter_split {A} (f : A -> bool) (l : list A) :
  length l = (length (filter f l) + length (filter (fun x => negb (f x)) l))%nat.
Proof.
  induction l as [|x l IH]; simpl; [reflexivity|].
  destruct (f x); simpl; lia.
Qed.

Lemma filter_none {A} (f : A -> bool) (l : list A) :
  filter f l = [] -> filter (fun x => negb (f x)) l = l.
Proof.
  induction l as [|x l IH]; simpl; [reflexivity|].
  destruct (f x); simpl; [discriminate|]. intros H. now rewrite IH.
Qed.

(** C5, as stated, fails: [delete_playlist] returns nothing and answers
    with the same text whether rows were removed or not, so the number of
    rows removed cannot be read from a run. *)
Lemma delete_playlist_hides_row_count :
  let full := mkWorld [sentinel 1 "Chill"; chill_track] [] [] in
  let r_full := delete_playlist env_ok 1 ["Chill"] full in
  let r_none := delete_playlist env_ok 1 ["Chill"] empty_world in
  fst r_full = fst r_none
  /\ outbox (snd r_full) = outbox (snd r_none)
  /\ (length (db full) - length (db (snd r_full)) = 2)%nat
  /\ (length (db empty_world) - length (db (snd r_none)) = 0)%nat.
Proof. repeat split. Qed.

(** C5, amended. With a healthy store, [delete_playlist] removes exactly
    the rows of (owner, name) and keeps every other row; the number of
    rows that disappear is the number of rows of the playlist, zero for a
    playlist that does not exist, in which case the table is unchanged
    and nothing is raised.  The handler returns no count: in every case
    it returns normally and answers "Playlist '<name>' deleted.". *)
Theorem delete_playlist_removes_rows :
  forall env uid a rest w,
    store_healthy env ->
    let name := PyStr.join " " (a :: rest) in
    let r := delete_playlist env uid (a :: rest) w in
    fst r = Ret tt
    /\ outbox (snd r)
       = outbox w ++ [ReplyText ("Playlist '" ++ name ++ "' deleted.")]
    /\ (forall row, In row (db (snd r))
                    <-> In row (db w) /\ in_playlist uid name row = false)
    /\ playlist_rows uid name (db (snd r)) = []
    /\ length (db w)
       = (length (playlist_rows uid name (db w)) + length (db (snd r)))%nat
    /\ (playlist_rows uid name (db w) = [] -> db (snd r) = db w).
Proof.
  intros env uid a rest w Hh name r. subst r.
  rewrite (delete_playlist_run env uid a rest w Hh).
  cbn [fst snd sent stored db outbox]. fold name.
  split; [reflexivity|]. split; [reflexivity|].
  split; [|split; [|split]].
  - intros row. unfold sql_delete. rewrite filter_In, negb_true_iff. tauto.
  - unfold playlist_rows, sql_delete. rewrite filter_filter.
    induction (db w) as [|x l IH]; simpl; [reflexivity|].
    destruct (in_playlist uid name x); simpl; exact IH.
  - unfold playlist_rows, sql_delete. apply length_filter_split.
  - unfold playlist_rows, sql_delete. apply filter_none.
Qed.

Lemma delete_playlist_removes_rows_witness :
  let w := mkWorld [sentinel 1 "Chill"; chill_track; sentinel 2 "Chill"] [] [] in
  let r := delete_playlist env_ok 1 ["Chill"] w in
  fst r = Ret tt
  /\ outbox (snd r) = outbox w ++ [ReplyText "Playlist 'Chill' deleted."]
  /\ (forall row, In row (db (snd r))
                  <-> In row (db w) /\ in_playlist 1 "Chill" row = false)
  /\ playlist_rows 1 "Chill" (db (snd r)) = []
  /\ length (db w)
     = (length (playlist_rows 1 "Chill" (db w)) + length (db (snd r)))%nat
  /\ (playlist_rows 1 "Chill" (db w) = [] -> db (snd r) = db w).
Proof.
  apply (delete_playlist_removes_rows env_ok 1 "Chill" []). repeat split.
Defined.

(** C6, as stated, fails: an add whose file name yields an empty title
    stores a row that is not the sentinel (its url is not empty) and that
    no view ever lists. *)
Lemma view_playlist_omits_untitled_song :
  let untitled := mkRow 1 "Chill" "" "https://example/track1" in
  let w := snd (add_to_playlist env_untitled 1
                  ["Chill"; "https://example/track1"] empty_world) in
  db w = [untitled]
  /\ untitled <> sentinel 1 "Chill"
  /\ in_playlist 1 "Chill" untitled = true
  /\ sql_select_songs 1 "Chill" (db w) = []
  /\ view_playlist env_ok 1 ["Chill"] w
     = (Ret tt, sent w (ReplyText "No songs in 'Chill'.")).
Proof.
  repeat split. intros E. discriminate E.
Qed.

(** C6, amended. The rows [view_playlist] selects are exactly the rows of
    (owner, name) whose title is not empty: no selected row has an empty
    title, so the sentinel row and a song stored with an empty title are
    never selected, and the selection is empty both for a playlist that
    holds only rows with an empty title and for a playlist with no row at
    all.  With the store reachable the handler answers with the selected
    rows, each once, in the order the server returns them, and with "No
    songs" when there is none. *)
Theorem view_playlist_lists_titled_rows :
  forall uid name t,
    (forall title url,
        In (title, url) (sql_select_songs uid name t)
        <-> In (mkRow uid name title url) t /\ title <> "")
    /\ length (sql_select_songs uid name t)
       = length (filter (fun r => negb (String.eqb (song_title r) ""))
                        (playlist_rows uid name t))
    /\ (forall title url,
           In (title, url) (sql_select_songs uid name t) -> title <> "")
    /\ ~ In ("", "") (sql_select_songs uid name t)
    /\ sql_select_songs uid name (t ++ [sentinel uid name])
       = sql_select_songs uid name t
    /\ ((forall r, In r (playlist_rows uid name t) -> song_title r = "") ->
        sql_select_songs uid name t = [])
    /\ (playlist_rows uid name t = [] -> sql_select_songs uid name t = [])
    /\ (forall env a rest w,
           connect_fault env = None -> execute_fault env = None ->
           PyStr.join " " (a :: rest) = name ->
           exists songs,
             Permutation songs (sql_select_songs uid name (db w))
             /\ (songs = [] <-> sql_select_songs uid name (db w) = [])
             /\ view_playlist env uid (a :: rest) w
                = (Ret tt, sent w (ReplyText (view_text name songs)))).
Proof.
  intros uid name t.
  assert (Hmem : forall title url,
             In (title, url) (sql_select_songs uid name t)
             <-> In (mkRow uid name title url) t /\ title <> "").
  { intros title url. unfold sql_select_songs. rewrite in_map_iff. split.
    - intros [r [E H]]. apply filter_In in H. destruct H as [Hin Hb].
      apply andb_prop in Hb. destruct Hb as [Hp Hn].
      unfold in_playlist in Hp. apply andb_prop in Hp. destruct Hp as [Hu Hnm].
      apply Z.eqb_eq in Hu. apply String.eqb_eq in Hnm.
      apply negb_true_iff, String.eqb_neq in Hn.
      destruct r as [u n ti ur]. simpl in *. inversion E. subst. auto.
    - intros [Hin Hne]. exists (mkRow uid name title url). split; [reflexivity|].
      apply filter_In. split; [exact Hin|].
      unfold in_playlist. simpl. rewrite Z.eqb_refl, String.eqb_refl. simpl.
      apply negb_true_iff, String.eqb_neq. exact Hne. }
  assert (Hempty : (forall r, In r (playlist_rows uid name t) -> song_title r = "")
                   -> sql_select_songs uid name t = []).
  { intros H. unfold sql_select_songs.
    replace (filter _ t) with (@nil Row); [reflexivity|].
    symmetry. unfold playlist_rows in H. clear Hmem.
    induction t as [|r t IH]; simpl; [reflexivity|].
    simpl in H. destruct (in_playlist uid name r) eqn:E; simpl.
    - rewrite (H r (or_introl eq_refl)). simpl. apply IH.
      intros r' Hr'. apply H. now right.
    - apply IH. exact H. }
  split; [exact Hmem|].
  split; [|split; [|split; [|split; [|split; [|split]]]]].
  - unfold sql_select_songs, playlist_rows.
    rewrite length_map, filter_filter. reflexivity.
  - intros title url H. now apply Hmem in H.
  - intros H. apply Hmem in H. now destruct H.
  - unfold sql_select_songs. rewrite filter_app. simpl.
    rewrite andb_false_r. simpl. now rewrite app_nil_r.
  - exact Hempty.
  - intros H. apply Hempty. rewrite H. intros r [].
  - intros env a rest w Hc He <-.
    exists (arrange (row_order env)
              (sql_select_songs uid (PyStr.join " " (a :: rest)) (db w))).
    split; [apply arrange_permutation|]. split; [apply arrange_nil_iff|].
    now apply view_playlist_run.
Qed.

Lemma view_playlist_lists_titled_rows_witness :
  sql_select_songs 1 "Chill" [sentinel 1 "Chill"] = []
  /\ sql_select_songs 1 "Chill" [] = []
  /\ exists songs,
       Permutation songs
         (sql_select_songs 1 "Chill"
            [sentinel 1 "Chill"; chill_track;
             mkRow 1 "Chill" "Other" "https://example/track2"])
       /\ view_playlist env_last_first 1 ["Chill"]
            (mkWorld [sentinel 1 "Chill"; chill_track;
                      mkRow 1 "Chill" "Other" "https://example/track2"] [] [])
          = (Ret tt,
             sent (mkWorld [sentinel 1 "Chill"; chill_track;
                            mkRow 1 "Chill" "Other" "https://example/track2"] [] [])
                  (ReplyText (view_text "Chill" songs))).
Proof.
  destruct (view_playlist_lists_titled_rows 1 "Chill" [sentinel 1 "Chill"])
    as (_ & _ & _ & _ & _ & H1 & _ & H3).
  destruct (view_playlist_lists_titled_rows 1 "Chill" [])
    as (_ & _ & _ & _ & _ & _ & H2 & _).
  split; [|split].
  - apply H1. intros r [<-|[]]. reflexivity.
  - apply H2. reflexivity.
  - destruct (H3 env_last_first "Chill" []
                (mkWorld [sentinel 1 "Chill"; chill_track;
                          mkRow 1 "Chill" "Other" "https://example/track2"] [] [])
                eq_refl eq_refl eq_refl) as (songs & Hp & _ & Hv).
    exists songs. split; assumption.
Defined.

(* ================================================================= *)
(** ** Owners are isolated from each other *)

Section Isolation.

Variable env : Env.
Variables a b : Z.
Hypothesis Hab : a <> b.

(** Case analysis on everything a run branches on. *)
Ltac branches :=
  repeat match goal with
         | |- context [match ?x with _ => _ end] =>
             match type of x with
             | option _ => destruct x eqn:?
             | bool => destruct x eqn:?
             | list _ => destruct x eqn:?
             end
         end.

Lemma handle_message_keeps_db raw w :
  db (snd (handle_message env a raw w)) = db w.
Proof.
  rewrite handle_message_unfold. cbv zeta.
  branches; reflexivity.
Qed.

Lemma handle_message_agree raw w1 w2 :
  agree a w1 w2 ->
  fst (handle_message env a raw w1) = fst (handle_message env a raw w2)
  /\ agree a (snd (handle_message env a raw w1)) (snd (handle_message env a raw w2)).
Proof.
  intros (Hd & Hf & Ho). rewrite !handle_message_unfold. cbv zeta.
  unfold agree, file_exists, downloaded, removed, sent, downloading.
  cbn [db files outbox]. rewrite Hf, Ho.
  branches; cbn [fst snd db files outbox]; auto.
Qed.

Lemma start_agree w1 w2 :
  agree a w1 w2 ->
  fst (start w1) = fst (start w2) /\ agree a (snd (start w1)) (snd (start w2)).
Proof.
  intros (Hd & Hf & Ho). unfold start, reply_text, agree.
  cbn [fst snd db files outbox]. now rewrite Ho.
Qed.

Lemma create_playlist_other args w :
  rows_of b (db (snd (create_playlist env a args w))) = rows_of b (db w).
Proof.
  destruct args as [|x rest]; [reflexivity|].
  rewrite create_playlist_unfold. cbv zeta.
  branches; cbn [snd db sent stored]; try reflexivity.
  now apply rows_of_insert_other with (a := a).
Qed.

Lemma create_playlist_agree args w1 w2 :
  agree a w1 w2 ->
  fst (create_playlist env a args w1) = fst (create_playlist env a args w2)
  /\ agree a (snd (create_playlist env a args w1))
             (snd (create_playlist env a args w2)).
Proof.
  intros (Hd & Hf & Ho).
  destruct args as [|x rest].
  - unfold create_playlist, reply_text, agree.
    cbn [fst snd db files outbox]. now rewrite Ho.
  - rewrite !create_playlist_unfold. cbv zeta.
    unfold agree, sent, stored. cbn [db files outbox].
    rewrite <- (has_key_rows_of a _ _ (db w1)), <- (has_key_rows_of a _ _ (db w2)).
    rewrite Hd, Hf, Ho.
    branches; cbn [fst snd db files outbox]; auto.
    rewrite !rows_of_insert_own by reflexivity. now rewrite Hd.
Qed.

Lemma view_playlist_other args w :
  db (snd (view_playlist env a args w)) = db w.
Proof.
  destruct args as [|x rest]; [reflexivity|].
  rewrite view_playlist_unfold. cbv zeta. branches; reflexivity.
Qed.

Lemma view_playlist_agree args w1 w2 :
  agree a w1 w2 ->
  fst (view_playlist env a args w1) = fst (view_playlist env a args w2)
  /\ agree a (snd (view_playlist env a args w1))
             (snd (view_playlist env a args w2)).
Proof.
  intros (Hd & Hf & Ho).
  destruct args as [|x rest].
  - unfold view_playlist, reply_text, agree.
    cbn [fst snd db files outbox]. now rewrite Ho.
  - rewrite !view_playlist_unfold. cbv zeta.
    unfold agree, sent. cbn [db files outbox].
    rewrite <- (sql_select_songs_rows_of a _ (db w1)),
            <- (sql_select_songs_rows_of a _ (db w2)).
    rewrite Hd, Ho.
    branches; cbn [fst snd db files outbox]; auto.
Qed.

Lemma delete_playlist_other args w :
  rows_of b (db (snd (delete_playlist env a args w))) = rows_of b (db w).
Proof.
  destruct args as [|x rest]; [reflexivity|].
  rewrite delete_playlist_unfold. cbv zeta.
  branches; cbn [snd db sent stored]; try reflexivity.
  now apply rows_of_sql_delete_other.
Qed.

Lemma delete_playlist_agree args w1 w2 :
  agree a w1 w2 ->
  fst (delete_playlist env a args w1) = fst (delete_playlist env a args w2)
  /\ agree a (snd (delete_playlist env a args w1))
             (snd (delete_playlist env a args w2)).
Proof.
  intros (Hd & Hf & Ho).
  destruct args as [|x rest].
  - unfold delete_playlist, reply_text, agree.
    cbn [fst snd db files outbox]. now rewrite Ho.
  - rewrite !delete_playlist_unfold. cbv zeta.
    unfold agree, sent, stored. cbn [db files outbox]. rewrite Hf, Ho.
    branches; cbn [fst snd db files outbox]; auto.
    rewrite !rows_of_sql_delete. now rewrite Hd.
Qed.

Lemma add_to_playlist_other args w :
  rows_of b (db (snd (add_to_playlist env a args w))) = rows_of b (db w).
Proof.
  destruct args as [|name [|x rest]]; try reflexivity.
  rewrite add_to_playlist_unfold. cbv zeta.
  branches; cbn [snd db sent removed stored downloaded]; try reflexivity;
    now apply rows_of_insert_other with (a := a).
Qed.

Lemma add_to_playlist_agree args w1 w2 :
  agree a w1 w2 ->
  fst (add_to_playlist env a args w1) = fst (add_to_playlist env a args w2)
  /\ agree a (snd (add_to_playlist env a args w1))
             (snd (add_to_playlist env a args w2)).
Proof.
  intros (Hd & Hf & Ho).
  destruct args as [|name [|x rest]];
    try (unfold add_to_playlist, reply_text, agree;
         cbn [fst snd db files outbox]; now rewrite Ho).
  rewrite !add_to_playlist_unfold. cbv zeta.
  unfold agree, file_exists, downloaded, removed, sent, stored.
  cbn [db files outbox].
  rewrite <- (has_key_rows_of a _ _ (db w1)), <- (has_key_rows_of a _ _ (db w2)).
  rewrite Hd, Hf, Ho.
  branches; cbn [fst snd db files outbox]; auto;
    rewrite !rows_of_insert_own by reflexivity; now rewrite Hd.
Qed.

End Isolation.

Lemma has_key_app k t1 t2 : has_key k (t1 ++ t2) = has_key k t1 || has_key k t2.
Proof. apply existsb_app. Qed.

(** C7. A handler run for owner [a] leaves the rows of any other owner
    [b] as they were, and neither its result nor its effects depend on
    rows that are not [a]'s: started in two worlds that agree on [a]'s
    rows, on the files and on the replies, it ends with the same result in
    two worlds that agree again.  In particular two owners can create a
    playlist of the same name one after the other, and both are answered
    "created". *)
Theorem owner_isolation :
  forall env a b u w,
    a <> b ->
    rows_of b (db (snd (handle env a u w))) = rows_of b (db w)
    /\ (forall w2,
           agree a w w2 ->
           fst (handle env a u w) = fst (handle env a u w2)
           /\ agree a (snd (handle env a u w)) (snd (handle env a u w2)))
    /\ (forall x rest,
           let name := PyStr.join " " (x :: rest) in
           let created := ReplyText ("Playlist '" ++ name ++ "' created.") in
           let ra := create_playlist env a (x :: rest) w in
           let rb := create_playlist env b (x :: rest) (snd ra) in
           store_healthy env ->
           has_key (a, name, "") (db w) = false ->
           has_key (b, name, "") (db w) = false ->
           fst ra = Ret tt /\ fst rb = Ret tt
           /\ outbox (snd rb) = outbox w ++ [created; created]
           /\ db (snd rb) = db w ++ [sentinel a name; sentinel b name]).
Proof.
  intros env a b u w Hab. split; [|split].
  - destruct u as [raw|[] args]; cbn [handle].
    + now rewrite handle_message_keeps_db.
    + reflexivity.
    + now apply create_playlist_other.
    + now apply add_to_playlist_other.
    + now rewrite view_playlist_other.
    + now apply delete_playlist_other.
  - intros w2 Hag. destruct u as [raw|[] args]; cbn [handle].
    + now apply handle_message_agree.
    + now apply start_agree.
    + now apply create_playlist_agree.
    + now apply add_to_playlist_agree.
    + now apply view_playlist_agree.
    + now apply delete_playlist_agree.
  - intros x rest name created ra rb Hh Ha Hb.
    assert (Ea : ra = (Ret tt, sent (stored (db w ++ [sentinel a name]) w) created))
      by (subst ra; now rewrite (create_playlist_fresh env a x rest w Hh Ha)).
    assert (Hb' : has_key (b, name, "") (db (snd ra)) = false).
    { rewrite Ea. cbn [snd sent stored db]. rewrite has_key_app, Hb.
      unfold has_key, sentinel, primary_key, key_eqb. cbn.
      replace (Z.eqb a b) with false; [reflexivity|].
      symmetry. now apply Z.eqb_neq. }
    assert (Eb : rb = (Ret tt, sent (stored (db (snd ra) ++ [sentinel b name]) (snd ra))
                                    created))
      by (subst rb; now rewrite (create_playlist_fresh env b x rest (snd ra) Hh Hb')).
    rewrite Eb, Ea. cbn [fst snd sent stored db outbox files].
    rewrite <- !app_assoc. repeat split.
Qed.

Lemma owner_isolation_witness :
  let ra := create_playlist env_ok 1 ["X"] empty_world in
  let rb := create_playlist env_ok 2 ["X"] (snd ra) in
  fst ra = Ret tt /\ fst rb = Ret tt
  /\ outbox (snd rb) = [ReplyText "Playlist 'X' created.";
                        ReplyText "Playlist 'X' created."]
  /\ db (snd rb) = [sentinel 1 "X"; sentinel 2 "X"].
Proof.
  assert (Hne : 1%Z <> 2%Z) by discriminate.
  destruct (owner_isolation env_ok 1 2 (Cmd CmdCreate ["X"]) empty_world Hne)
    as (_ & _ & H).
  apply (H "X" []); [repeat split | reflexivity | reflexivity].
Defined.

(* ================================================================= *)
(** ** The resolver *)

(** C9. [download_audio] returns in every case.  When the fetch or the
    transcoding fails, whatever the cause, the value is [(None, str(e))]:
    no file name, and the text of the exception as the cause.  Nothing is
    raised to the caller, the table and the replies are untouched, and
    both callers put the cause in the text they answer with. *)
Theorem download_audio_never_raises :
  forall env q uid w,
    let r := download_audio env q uid w in
    (exists v, fst r = Ret v)
    /\ db (snd r) = db w /\ outbox (snd r) = outbox w
    /\ (forall cause m,
           ydl_result (ydl_extract_info env q
                         (negb (PyStr.startswith q "http")) uid)
           = inl (cause, m) ->
           fst r = Ret (None, m)
           /\ (forall name x rest,
                  PyStr.join " " (x :: rest) = q ->
                  add_to_playlist env uid (name :: x :: rest) w
                  = (Ret tt, sent (snd r) (ReplyText ("Failed to add: " ++ m))))
           /\ (forall raw,
                  PyStr.strip raw = q -> q <> "" ->
                  handle_message env uid raw w
                  = (Ret tt,
                     sent (downloaded env q uid (sent w downloading))
                          (ReplyText ("Failed to download: " ++ m))))).
Proof.
  intros env q uid w r. subst r. rewrite download_audio_run.
  cbn [fst snd]. split; [eexists; reflexivity|].
  split; [reflexivity|]. split; [reflexivity|].
  intros cause m Hy.
  assert (Hr : resolved env q uid = (None, m))
    by (unfold resolved; now rewrite Hy).
  rewrite Hr. split; [reflexivity|]. split.
  - intros name x rest <-. rewrite add_to_playlist_unfold. cbv zeta.
    now rewrite Hr.
  - intros raw <- Hq. rewrite handle_message_unfold. cbv zeta.
    apply String.eqb_neq in Hq. now rewrite Hq, Hr.
Qed.

Lemma download_audio_never_raises_witness :
  fst (download_audio env_net_down "lofi hip hop" 1 empty_world)
  = Ret (None, "Unable to download webpage")
  /\ add_to_playlist env_net_down 1 ["Chill"; "lofi"; "hip"; "hop"] empty_world
     = (Ret tt, mkWorld [] [] [ReplyText "Failed to add: Unable to download webpage"])
  /\ handle_message env_net_down 1 "lofi hip hop" empty_world
     = (Ret tt, mkWorld [] [] [downloading;
          ReplyText "Failed to download: Unable to download webpage"]).
Proof.
  destruct (download_audio_never_raises env_net_down "lofi hip hop" 1 empty_world)
    as (_ & _ & _ & H).
  destruct (H NetworkError "Unable to download webpage" eq_refl)
    as (H1 & H2 & H3).
  split; [exact H1|]. split.
  - apply (H2 "Chill" "lofi" ["hip"; "hop"]). reflexivity.
  - apply (H3 "lofi hip hop"); [reflexivity|discriminate].
Defined.

(* ================================================================= *)
(** ** Replies and cleanup *)

Lemma file_exists_removed f w : file_exists f (removed f w) = false.
Proof.
  unfold file_exists, removed. cbn [files].
  induction (files w) as [|g l IH]; [reflexivity|].
  cbn [filter]. destruct (String.eqb f g) eqn:E; cbn [negb]; [exact IH|].
  cbn [existsb]. now rewrite E, IH.
Qed.

Lemma file_exists_sent f w r : file_exists f (sent w r) = file_exists f w.
Proof. reflexivity. Qed.

Lemma file_exists_stored f t w : file_exists f (stored t w) = file_exists f w.
Proof. reflexivity. Qed.

(** C3, as stated, fails: when the connection to the store cannot be
    opened, the delete handler ends with the exception and has sent
    nothing. *)
Lemma delete_playlist_store_fault_no_reply :
  delete_playlist env_no_db 1 ["Chill"] empty_world
  = (Raise (mkExn OperationalError "connection refused"), empty_world)
  /\ outbox (snd (delete_playlist env_no_db 1 ["Chill"] empty_world)) = [].
Proof. split; reflexivity. Qed.

(** C3, amended. The bare-text branch sends at least one reply in every
    case, whatever the resolver and the delivery do.  A command sends at
    least one reply and returns normally whenever no store call raises a
    fault and, for an add whose resolve succeeded, the key is new and the
    resolved file is on disk: usage errors, resolver failures, a duplicate
    create ("already exists") and all successes are answered.  When the
    connection to the store cannot be opened, the create, view and delete
    handlers end with that exception and have sent nothing. *)
Theorem handle_replies_when_store_is_healthy :
  forall env uid u w,
    let r := handle env uid u w in
    (forall raw, u = BareText raw ->
        exists rs, rs <> [] /\ outbox (snd r) = outbox w ++ rs)
    /\ (forall c args, u = Cmd c args ->
        store_healthy env -> add_goes_through env uid u w ->
        fst r = Ret tt
        /\ exists rs, rs <> [] /\ outbox (snd r) = outbox w ++ rs)
    /\ (forall c x rest m, u = Cmd c (x :: rest) ->
        c = CmdCreate \/ c = CmdView \/ c = CmdDelete ->
        connect_fault env = Some m ->
        r = (Raise (mkExn OperationalError m), w)).
Proof.
  intros env uid u w r. subst r. split; [|split].
  - intros raw ->. cbn [handle]. rewrite handle_message_unfold. cbv zeta.
    unfold sent, removed, downloaded, downloading.
    destruct (String.eqb _ ""); [eexists; split; [|reflexivity]; discriminate|].
    destruct (_ && _).
    + cbn [snd outbox]. eexists; split; [|reflexivity]; discriminate.
    + cbn [snd outbox]. rewrite <- app_assoc.
      eexists; split; [|reflexivity]; discriminate.
  - intros c args -> (Hc & He & Hm) Hadd.
    destruct c; cbn [handle].
    + split; [reflexivity|]. eexists; split; [|reflexivity]; discriminate.
    + destruct args as [|x rest].
      * split; [reflexivity|]. eexists; split; [|reflexivity]; discriminate.
      * rewrite create_playlist_unfold. cbv zeta. rewrite Hc, He, Hm.
        destruct (has_key _ _); (split; [reflexivity|]);
          eexists; (split; [|reflexivity]); discriminate.
    + destruct args as [|name [|x rest]];
        try (split; [reflexivity|]; eexists; split; [|reflexivity]; discriminate).
      rewrite add_to_playlist_unfold. cbv zeta. rewrite Hc, He, Hm.
      cbn [add_goes_through] in Hadd.
      destruct (truthy _); cbn [negb].
      * destruct (Hadd eq_refl) as [Hk Hf]. rewrite Hk, Hf.
        split; [reflexivity|]. eexists; split; [|reflexivity]; discriminate.
      * split; [reflexivity|]. eexists; split; [|reflexivity]; discriminate.
    + destruct args as [|x rest].
      * split; [reflexivity|]. eexists; split; [|reflexivity]; discriminate.
      * rewrite view_playlist_unfold. cbv zeta. rewrite Hc, He.
        split; [reflexivity|]. eexists; split; [|reflexivity]; discriminate.
    + destruct args as [|x rest].
      * split; [reflexivity|]. eexists; split; [|reflexivity]; discriminate.
      * rewrite delete_playlist_unfold. cbv zeta. rewrite Hc, He, Hm.
        split; [reflexivity|]. eexists; split; [|reflexivity]; discriminate.
  - intros c x rest m -> Hor Hc. now apply connect_fault_raises.
Qed.

Lemma handle_replies_when_store_is_healthy_witness :
  let w := mkWorld [sentinel 1 "Chill"] [] [] in
  let r := handle env_ok 1 (Cmd CmdCreate ["Chill"]) w in
  let r' := handle env_no_delivery 1 (BareText "lofi hip hop") w in
  (fst r = Ret tt
   /\ exists rs, rs <> [] /\ outbox (snd r) = outbox w ++ rs)
  /\ (exists rs, rs <> [] /\ outbox (snd r') = outbox w ++ rs)
  /\ handle env_no_db 1 (Cmd CmdView ["Chill"]) w
     = (Raise (mkExn OperationalError "connection refused"), w).
Proof.
  split; [|split].
  - destruct (handle_replies_when_store_is_healthy env_ok 1
                (Cmd CmdCreate ["Chill"]) (mkWorld [sentinel 1 "Chill"] [] []))
      as (_ & H & _).
    apply (H CmdCreate ["Chill"]); [reflexivity | repeat split | exact I].
  - destruct (handle_replies_when_store_is_healthy env_no_delivery 1
                (BareText "lofi hip hop") (mkWorld [sentinel 1 "Chill"] [] []))
      as (H & _).
    apply (H "lofi hip hop"). reflexivity.
  - destruct (handle_replies_when_store_is_healthy env_no_db 1
                (Cmd CmdView ["Chill"]) (mkWorld [sentinel 1 "Chill"] [] []))
      as (_ & _ & H).
    apply (H CmdView "Chill" []); [reflexivity | auto | reflexivity].
Defined.

(** C4, as stated, fails: the resolver succeeds and leaves its file, the
    store cannot be reached, and the add handler ends with the exception
    while the file is still on disk. *)
Lemma add_to_playlist_store_fault_keeps_file :
  let r := add_to_playlist env_no_db 1 ["Chill"; "https://example/track1"]
             empty_world in
  fst (resolved env_no_db "https://example/track1" 1) = Some "/tmp/1_Song.mp3"
  /\ fst r = Raise (mkExn OperationalError "connection refused")
  /\ file_exists "/tmp/1_Song.mp3" (snd r) = true.
Proof. repeat split. Qed.

(** C4, amended. After a successful resolve of an add for a key that is
    not in the table yet, with the resolved file on disk: when no store
    call raises a fault the row is committed and the file is then removed
    before the reply; when a store call raises a fault, the handler ends
    with that exception and the file is still on disk, the table and the
    replies unchanged. *)
Theorem add_to_playlist_cleanup_follows_store_write :
  forall env uid name x rest w,
    let q := PyStr.join " " (x :: rest) in
    let f := the_path (fst (resolved env q uid)) in
    let row := mkRow uid name (song_title_of uid f) (song_url_of q) in
    let r := add_to_playlist env uid (name :: x :: rest) w in
    truthy (fst (resolved env q uid)) = true ->
    file_exists f (downloaded env q uid w) = true ->
    has_key (uid, name, song_url_of q) (db w) = false ->
    (store_healthy env ->
     fst r = Ret tt /\ db (snd r) = db w ++ [row]
     /\ file_exists f (snd r) = false)
    /\ (~ store_healthy env ->
        (exists m, fst r = Raise (mkExn OperationalError m))
        /\ file_exists f (snd r) = true
        /\ db (snd r) = db w /\ outbox (snd r) = outbox w).
Proof.
  intros env uid name x rest w q f row r Ht Hf Hk. subst r.
  rewrite add_to_playlist_unfold. cbv zeta. fold q. fold f. fold row.
  rewrite Ht, Hk, Hf. cbn [negb]. split.
  - intros (Hc & He & Hm). rewrite Hc, He, Hm. cbn [fst snd].
    split; [reflexivity|]. split; [reflexivity|].
    rewrite file_exists_sent. apply file_exists_removed.
  - intros Hn.
    destruct (connect_fault env) as [m|] eqn:Hc;
      [cbn [fst snd]; split; [now exists m|auto]|].
    destruct (execute_fault env) as [m|] eqn:He;
      [cbn [fst snd]; split; [now exists m|auto]|].
    destruct (commit_fault env) as [m|] eqn:Hm;
      [cbn [fst snd]; split; [now exists m|auto]|].
    elim Hn. repeat split; assumption.
Qed.

Lemma add_to_playlist_cleanup_follows_store_write_witness :
  let r := add_to_playlist env_ok 1 ["Chill"; "https://example/track1"]
             empty_world in
  fst r = Ret tt /\ db (snd r) = [chill_track]
  /\ file_exists "/tmp/1_Song.mp3" (snd r) = false.
Proof.
  destruct (add_to_playlist_cleanup_follows_store_write env_ok 1 "Chill"
              "https://example/track1" [] empty_world
              eq_refl eq_refl eq_refl) as (H & _).
  apply H. repeat split.
Defined.

(** C8. On the bare-text branch the audio is never delivered and the temp
    file is never removed.  Every reply of the handler is a text.  Once
    the resolver has produced a file that is on disk, the call
    [Audio(audio_file, title=..., filename=...)] raises [TypeError] inside
    the [with] block: [reply_audio] and [os.remove] are not reached, the
    handler ends with the exception, the only reply is the "Downloading"
    notice, and the file is still on disk. *)
Theorem handle_message_audio_never_delivered :
  forall env uid raw w,
    let q := PyStr.strip raw in
    let w1 := downloaded env q uid (sent w downloading) in
    let f := the_path (fst (resolved env q uid)) in
    let r := handle_message env uid raw w in
    (exists rs, outbox (snd r) = outbox w ++ rs
                /\ forall x, In x rs -> exists text, x = ReplyText text)
    /\ (q <> "" ->
        truthy (fst (resolved env q uid)) = true ->
        file_exists f w1 = true ->
        (exists e, fst r = Raise e /\ exn_class e = TypeError)
        /\ snd r = w1
        /\ outbox (snd r) = outbox w ++ [downloading]
        /\ file_exists f (snd r) = true).
Proof.
  intros env uid raw w q w1 f r. subst r.
  rewrite handle_message_unfold. cbv zeta. fold q. fold w1. fold f. split.
  - subst w1. unfold sent, downloaded, downloading.
    destruct (String.eqb q "").
    + eexists. split; [reflexivity|]. intros x [<-|[]]. eexists. reflexivity.
    + destruct (_ && _); cbn [snd outbox]; rewrite <- ?app_assoc;
        (eexists; split; [reflexivity|]);
        cbn [app]; intros x Hx;
        repeat (destruct Hx as [<-|Hx]; [eexists; reflexivity|]);
        destruct Hx.
  - intros Hq Ht Hf. apply String.eqb_neq in Hq. rewrite Hq, Ht, Hf.
    cbn [andb fst snd]. split; [eexists; split; reflexivity|].
    split; [reflexivity|]. split; [reflexivity|exact Hf].
Qed.

Lemma handle_message_audio_never_delivered_witness :
  let r := handle_message env_ok 1 "lofi hip hop" empty_world in
  (exists e, fst r = Raise e /\ exn_class e = TypeError)
  /\ snd r = mkWorld [] ["/tmp/1_Song.mp3"] [downloading]
  /\ outbox (snd r) = [downloading]
  /\ file_exists "/tmp/1_Song.mp3" (snd r) = true.
Proof.
  assert (Hq : PyStr.strip "lofi hip hop" <> "") by discriminate.
  destruct (handle_message_audio_never_delivered env_ok 1 "lofi hip hop"
              empty_world) as (_ & H).
  apply H; [exact Hq|reflexivity|reflexivity].
Defined.

(* ================================================================= *)
(** ** Playlist names with a space *)

Lemma command_args_tokens text a :
  In a (command_args text) ->
  a <> "" /\ PyStr.no_ws a = true /\ PyStr.has_space a = false.
Proof.
  intros Hin. apply (PyStrFacts.split_ws_tokens text).
  unfold command_args in Hin.
  destruct (PyStr.split_ws text); [destruct Hin|now right].
Qed.

Lemma command_args_spell cmd words :
  cmd <> "" -> PyStr.no_ws cmd = true ->
  (forall x, In x words -> x <> "" /\ PyStr.no_ws x = true) ->
  command_args (cmd ++ " " ++ PyStr.join " " words) = words.
Proof.
  intros Hne Hws Hwords. unfold command_args, PyStr.split_ws.
  change (cmd ++ " " ++ PyStr.join " " words)%string
    with (cmd ++ String " " (PyStr.join " " words))%string.
  rewrite (PyStrFacts.split_ws_from_token cmd "" _ Hws)
    by (right; eexists; reflexivity).
  cbn [append]. rewrite (PyStrFacts.split_ws_from_space cmd _ Hne). cbn [tl].
  now apply PyStrFacts.split_ws_join.
Qed.






(* ================================================================= *)
(** ** What a run does to the table *)

Lemma song_url_of_http s : PyStr.startswith (song_url_of s) "http" = true.
Proof.
  unfold song_url_of.
  destruct (PyStr.startswith s "http") eqn:E; [exact E|reflexivity].
Qed.

Lemma song_url_of_nonempty s : song_url_of s <> "".
Proof.
  intros E. pose proof (song_url_of_http s) as H. rewrite E in H. discriminate H.
Qed.

(** The table after a run: as before, or with one new row of the sender
    under a key that was free, or with one playlist of the sender
    deleted. *)
Lemma handle_db_cases env uid u w :
  db (snd (handle env uid u w)) = db w
  \/ (exists r,
         db (snd (handle env uid u w)) = db w ++ [r]
         /\ has_key (primary_key r) (db w) = false
         /\ user_id r = uid
         /\ (r = sentinel uid (PyStr.join " " (match u with
                                               | Cmd _ args => args
                                               | BareText _ => []
                                               end))
             \/ PyStr.startswith (song_url r) "http" = true))
  \/ (exists name, db (snd (handle env uid u w)) = sql_delete uid name (db w)).
Proof.
  destruct u as [raw|[] args]; cbn [handle].
  - left. apply handle_message_keeps_db.
  - left. reflexivity.
  - destruct args as [|x rest]; [left; reflexivity|].
    rewrite create_playlist_unfold. cbv zeta.
    run_cases; cbn [snd db sent stored]; auto.
    right. left. eexists. split; [reflexivity|]. auto.
  - destruct args as [|name [|x rest]]; try (left; reflexivity).
    rewrite add_to_playlist_unfold. cbv zeta.
    run_cases; cbn [snd db sent removed stored downloaded]; auto;
      right; left; (eexists; split; [reflexivity|]);
      cbn [primary_key user_id playlist_name song_url];
      (split; [assumption|]); (split; [reflexivity|]);
      right; apply song_url_of_http.
  - left. apply view_playlist_other.
  - destruct args as [|x rest]; [left; reflexivity|].
    rewrite delete_playlist_unfold. cbv zeta.
    run_cases; cbn [snd db sent stored]; auto.
    right. right. eexists. reflexivity.
Qed.

Lemma sql_delete_empty_url_is_sentinel uid name t :
  empty_url_is_sentinel t -> empty_url_is_sentinel (sql_delete uid name t).
Proof.
  intros H r Hin. apply filter_In in Hin. now apply H.
Qed.

Lemma key_unique_after_handle env uid u w :
  key_unique (db w) -> key_unique (db (snd (handle env uid u w))).
Proof.
  intros Hu.
  destruct (handle_db_cases env uid u w) as [E|[(r & E & Hk & _)|(name & E)]];
    rewrite E.
  - exact Hu.
  - apply (sql_insert_key_unique r (db w)); [exact Hu|].
    unfold sql_insert. now rewrite Hk.
  - now apply sql_delete_key_unique.
Qed.

(** X1. Every handler keeps the primary key of the table: started on a
    table without two rows of the same key, a run ends on such a table,
    whatever the collaborators do and whether it returns or raises. *)
Theorem handle_keeps_key_unique :
  forall env uid u w,
    key_unique (db w) -> key_unique (db (snd (handle env uid u w))).
Proof.
  intros env uid u w Hu.
  destruct (handle_db_cases env uid u w) as [E|[(r & E & Hk & _)|(name & E)]].
  - rewrite E. exact Hu.
  - rewrite E. unfold key_unique in *. rewrite map_app. cbn [map].
    apply NoDup_app; [exact Hu|constructor; [intros []|constructor]|].
    intros k Hin [<-|[]]. apply has_key_in_map in Hin. congruence.
  - rewrite E. now apply sql_delete_key_unique.
Qed.

Lemma handle_keeps_key_unique_witness :
  key_unique
    (db (snd (handle env_ok 1
                (Cmd CmdAdd ["Chill"; "https://example/track1"])
                (mkWorld [sentinel 1 "Chill"] [] []))))
  /\ key_unique
       (db (snd (handle env_ok 1
                   (Cmd CmdAdd ["Chill"; "https://example/track1"])
                   (mkWorld [sentinel 1 "Chill"; chill_track] [] [])))).
Proof.
  split; apply handle_keeps_key_unique; unfold key_unique; cbn;
    repeat constructor; cbn; intuition discriminate.
Defined.

Lemma handle_keeps_empty_url_is_sentinel env uid u w :
  empty_url_is_sentinel (db w) ->
  empty_url_is_sentinel (db (snd (handle env uid u w))).
Proof.
  intros Hs.
  destruct (handle_db_cases env uid u w)
    as [E|[(r & E & _ & _ & Hr)|(name & E)]]; rewrite E.
  - exact Hs.
  - intros r' Hin Hurl. apply in_app_or in Hin. destruct Hin as [Hin|[<-|[]]].
    + now apply Hs.
    + destruct Hr as [->|Hh]; [reflexivity|].
      rewrite Hurl in Hh. discriminate Hh.
  - now apply sql_delete_empty_url_is_sentinel.
Qed.

Lemma run_polling_invariant (P : Table -> Prop) :
  (forall env uid u w, P (db w) -> P (db (snd (handle env uid u w)))) ->
  forall events w, P (db w) -> P (db (run_polling events w)).
Proof.
  intros Hstep events. induction events as [|[[env uid] u] rest IH];
    intros w Hw; cbn [run_polling]; [exact Hw|].
  apply IH. now apply Hstep.
Qed.

(** X2. Every table the bot can reach is well formed.  Started on no
    table, or on a table with distinct keys in which only rows with an
    empty title have an empty url, [main] ends, after any sequence of
    updates from any senders with any behaviour of the collaborators, on a
    table with distinct keys in which only rows with an empty title have
    an empty url: a playlist has at most one row with an empty url, and
    that row is its sentinel. *)
Theorem main_reaches_well_formed_tables :
  forall store events,
    (forall t, store = Some t -> key_unique t /\ empty_url_is_sentinel t) ->
    let t' := db (main store events) in
    key_unique t' /\ empty_url_is_sentinel t'
    /\ (forall uid name r1 r2,
           In r1 t' -> In r2 t' ->
           primary_key r1 = (uid, name, "") -> primary_key r2 = (uid, name, "") ->
           r1 = sentinel uid name /\ r2 = r1).
Proof.
  intros store events Hstore t'.
  assert (Hk : key_unique t' /\ empty_url_is_sentinel t').
  { subst t'. unfold main.
    destruct store as [t|]; cbn [init_db].
    - destruct (Hstore t eq_refl) as [H1 H2]. split.
      + now apply (run_polling_invariant key_unique key_unique_after_handle).
      + now apply (run_polling_invariant empty_url_is_sentinel
                     handle_keeps_empty_url_is_sentinel).
    - split.
      + apply (run_polling_invariant key_unique key_unique_after_handle).
        constructor.
      + apply (run_polling_invariant empty_url_is_sentinel
                 handle_keeps_empty_url_is_sentinel).
        intros r []. }
  destruct Hk as [Hu Hs]. split; [exact Hu|]. split; [exact Hs|].
  intros uid name r1 r2 H1 H2 K1 K2.
  assert (Hshape : forall r, In r t' -> primary_key r = (uid, name, "") ->
                             r = sentinel uid name).
  { intros r Hin K. pose proof (Hs r Hin) as Ht.
    destruct r as [u n ti ur]. unfold primary_key in K. cbn in *.
    inversion K; subst. now rewrite Ht. }
  split; [now apply Hshape|].
  rewrite (Hshape r1 H1 K1). now apply Hshape.
Qed.

Lemma main_reaches_well_formed_tables_witness :
  let t' := db (main (Some [sentinel 1 "Chill"])
                  [(env_ok, 1%Z, Cmd CmdAdd ["Chill"; "https://example/track1"]);
                   (env_ok, 2%Z, Cmd CmdCreate ["Chill"])]) in
  key_unique t' /\ empty_url_is_sentinel t'
  /\ (forall uid name r1 r2,
         In r1 t' -> In r2 t' ->
         primary_key r1 = (uid, name, "") -> primary_key r2 = (uid, name, "") ->
         r1 = sentinel uid name /\ r2 = r1).
Proof.
  apply (main_reaches_well_formed_tables (Some [sentinel 1 "Chill"])).
  intros t E. inversion E. subst t. split.
  - unfold key_unique. cbn. repeat constructor. intros [].
  - intros r [<-|[]] _. reflexivity.
Defined.

(* ================================================================= *)
(** ** Edge inputs *)

(** X3. Argument counts are checked before anything else happens.  A
    create, view or delete without argument and an add with fewer than two
    arguments return normally with one reply that starts with "Usage: /",
    and leave the table and the files as they were: neither the resolver
    nor the store is called, so this holds also when both are down. *)
Theorem usage_before_any_effect :
  forall env uid c args w,
    (c = CmdAdd /\ (length args < 2)%nat)
    \/ ((c = CmdCreate \/ c = CmdView \/ c = CmdDelete) /\ args = []) ->
    exists text,
      PyStr.startswith text "Usage: /" = true
      /\ handle env uid (Cmd c args) w = (Ret tt, sent w (ReplyText text)).
Proof.
  intros env uid c args w [[-> Hl] | [[-> | [-> | ->]] ->]]; cbn [handle].
  - rewrite add_to_playlist_usage by exact Hl.
    eexists. split; [|reflexivity]. reflexivity.
  - eexists. split; [|reflexivity]. reflexivity.
  - eexists. split; [|reflexivity]. reflexivity.
  - eexists. split; [|reflexivity]. reflexivity.
Qed.

Lemma usage_before_any_effect_witness :
  exists text,
    PyStr.startswith text "Usage: /" = true
    /\ handle env_no_db 1 (Cmd CmdAdd ["Chill"]) empty_world
       = (Ret tt, sent empty_world (ReplyText text)).
Proof.
  apply usage_before_any_effect. left. split; [reflexivity|]. cbn. lia.
Defined.

(** X4. A bare text made of whitespace characters only (or empty) is
    answered with the hint "Please send a YouTube link or song name." and
    nothing else happens: no "Downloading" notice, no resolver call, no
    file, no row.  Every other text is answered first with the
    "Downloading" notice.  Whitespace is what [str.isspace] accepts, the
    no-break space and the other spaces of Unicode included. *)
Theorem handle_message_blank_text :
  forall env uid raw w,
    (PyStr.all_ws raw = true ->
     handle_message env uid raw w
     = (Ret tt, sent w (ReplyText "Please send a YouTube link or song name.")))
    /\ (PyStr.all_ws raw = false ->
        exists rs,
          outbox (snd (handle_message env uid raw w))
          = outbox w ++ downloading :: rs).
Proof.
  intros env uid raw w. split; intros H.
  - apply handle_message_empty. now apply PyStrFacts.strip_empty_iff.
  - rewrite handle_message_unfold. cbv zeta.
    destruct (String.eqb (PyStr.strip raw) "") eqn:E.
    + apply String.eqb_eq, PyStrFacts.strip_empty_iff in E. congruence.
    + unfold sent, removed, downloaded, downloading.
      run_cases; cbn [snd outbox]; rewrite <- ?app_assoc;
        eexists; reflexivity.
Qed.

Lemma handle_message_blank_text_witness :
  handle_message env_ok 1 (" " ++ nbsp ++ newline) empty_world
  = (Ret tt, sent empty_world
               (ReplyText "Please send a YouTube link or song name."))
  /\ exists rs,
       outbox (snd (handle_message env_net_down 1 " lofi " empty_world))
       = outbox empty_world ++ downloading :: rs.
Proof.
  split.
  - apply (handle_message_blank_text env_ok 1 (" " ++ nbsp ++ newline)
             empty_world). reflexivity.
  - apply (handle_message_blank_text env_net_down 1 " lofi " empty_world).
    reflexivity.
Defined.

(* ================================================================= *)
(** ** What a run never does *)

(** X5. The footprint of the handlers, whatever the collaborators do and
    whether the run returns or raises: the bare-text handler, the start
    command and the view command never change the table; the start,
    create, view and delete commands never change the files on disk; and
    no handler takes back a reply, it only appends, at most two replies
    for a bare text and at most one for a command. *)
Theorem handler_footprint :
  forall env uid u w,
    let w' := snd (handle env uid u w) in
    (match u with
     | BareText _ | Cmd CmdStart _ | Cmd CmdView _ => db w' = db w
     | _ => True
     end)
    /\ (match u with
        | Cmd CmdAdd _ | BareText _ => True
        | _ => files w' = files w
        end)
    /\ exists rs,
         outbox w' = outbox w ++ rs
         /\ (length rs <= match u with BareText _ => 2 | Cmd _ _ => 1 end)%nat.
Proof.
  intros env uid u w w'. subst w'.
  destruct u as [raw|[] args]; cbn [handle].
  - split; [apply handle_message_keeps_db|]. split; [exact I|].
    rewrite handle_message_unfold. cbv zeta.
    unfold sent, removed, downloaded, downloading.
    run_cases; cbn [snd outbox]; rewrite <- ?app_assoc;
      eexists; (split; [reflexivity|]); cbn; lia.
  - split; [reflexivity|]. split; [reflexivity|].
    eexists. split; [reflexivity|]. cbn. lia.
  - split; [exact I|].
    destruct args as [|x rest].
    + split; [reflexivity|]. eexists. split; [reflexivity|]. cbn. lia.
    + rewrite create_playlist_unfold. cbv zeta.
      run_cases; cbn [snd sent stored files outbox];
        (split; [reflexivity|]);
        first [ exists []; split; [now rewrite app_nil_r|cbn; lia]
              | eexists; split; [reflexivity|]; cbn; lia ].
  - split; [exact I|]. split; [exact I|].
    destruct args as [|name [|x rest]];
      try (eexists; split; [reflexivity|]; cbn; lia).
    rewrite add_to_playlist_unfold. cbv zeta.
    run_cases; cbn [snd sent stored removed downloaded files outbox];
      first [ exists []; split; [now rewrite app_nil_r|cbn; lia]
            | eexists; split; [reflexivity|]; cbn; lia ].
  - split; [apply view_playlist_other|].
    destruct args as [|x rest].
    + split; [reflexivity|]. eexists. split; [reflexivity|]. cbn. lia.
    + rewrite view_playlist_unfold. cbv zeta.
      run_cases; cbn [snd sent files outbox];
        (split; [reflexivity|]);
        first [ exists []; split; [now rewrite app_nil_r|cbn; lia]
              | eexists; split; [reflexivity|]; cbn; lia ].
  - split; [exact I|].
    destruct args as [|x rest].
    + split; [reflexivity|]. eexists. split; [reflexivity|]. cbn. lia.
    + rewrite delete_playlist_unfold. cbv zeta.
      run_cases; cbn [snd sent stored files outbox];
        (split; [reflexivity|]);
        first [ exists []; split; [now rewrite app_nil_r|cbn; lia]
              | eexists; split; [reflexivity|]; cbn; lia ].
Qed.

(* ================================================================= *)
(** ** Runs that raise *)



(** X7. When the resolver reports a file name that is not on disk, the two
    callers differ.  The bare-text handler checks [os.path.exists] and
    answers "Failed to download: <title>".  The add handler does not
    check: with a healthy store and a free key it commits the row, then
    [os.remove] raises [FileNotFoundError], and no reply is sent. *)
Theorem resolved_file_missing :
  forall env uid q w,
    let f := the_path (fst (resolved env q uid)) in
    let t := snd (resolved env q uid) in
    truthy (fst (resolved env q uid)) = true ->
    (PyStr.strip q = q -> q <> "" ->
     file_exists f (downloaded env q uid (sent w downloading)) = false ->
     handle_message env uid q w
     = (Ret tt, sent (downloaded env q uid (sent w downloading))
                     (ReplyText ("Failed to download: " ++ t))))
    /\ (forall name x rest,
           PyStr.join " " (x :: rest) = q ->
           store_healthy env ->
           has_key (uid, name, song_url_of q) (db w) = false ->
           file_exists f (downloaded env q uid w) = false ->
           let r := add_to_playlist env uid (name :: x :: rest) w in
           (exists e, fst r = Raise e /\ exn_class e = FileNotFoundError)
           /\ outbox (snd r) = outbox w
           /\ db (snd r)
              = db w ++ [mkRow uid name (song_title_of uid f) (song_url_of q)]).
Proof.
  intros env uid q w f t Ht. split.
  - intros Hs Hq Hf. rewrite handle_message_unfold. cbv zeta. rewrite Hs.
    apply String.eqb_neq in Hq. rewrite Hq. fold f. rewrite Hf, Ht.
    reflexivity.
  - intros name x rest Hj (Hc & He & Hm) Hk Hf r. subst r.
    rewrite add_to_playlist_unfold. cbv zeta. rewrite Hj. fold f.
    rewrite Ht, Hc, He, Hk, Hm, Hf. cbn [negb fst snd].
    split; [eexists; split; reflexivity|]. split; reflexivity.
Qed.

Lemma resolved_file_missing_witness :
  handle_message env_opus 1 "lofi" empty_world
  = (Ret tt, mkWorld [] ["/tmp/1_Song.mp3"]
               [downloading; ReplyText "Failed to download: Song"])
  /\ (let r := add_to_playlist env_opus 1 ["Chill"; "lofi"] empty_world in
      (exists e, fst r = Raise e /\ exn_class e = FileNotFoundError)
      /\ outbox (snd r) = outbox empty_world
      /\ db (snd r)
         = [mkRow 1 "Chill" "Song.opus" "https://www.youtube.com/watch?v=lofi"]).
Proof.
  destruct (resolved_file_missing env_opus 1 "lofi" empty_world eq_refl)
    as (H1 & H2).
  split.
  - apply H1; [reflexivity|discriminate|reflexivity].
  - apply (H2 "Chill" "lofi" []); [reflexivity|repeat split|reflexivity|reflexivity].
Defined.

(* ================================================================= *)
(** ** How the commands compose *)

Lemma sql_select_songs_app uid name t1 t2 :
  sql_select_songs uid name (t1 ++ t2)
  = sql_select_songs uid name t1 ++ sql_select_songs uid name t2.
Proof. unfold sql_select_songs. now rewrite filter_app, map_app. Qed.

(** X8. Add, then view.  After an add that went through, a view of the
    same playlist by the same owner lists, in the order the server
    returns them, the songs it listed before and the new song, each once,
    provided the title derived from the file name is not empty; when that
    title is empty the row is stored but the view lists only what it
    listed before: the song is never shown. *)
Theorem add_then_view :
  forall env env' uid name x rest w,
    let q := PyStr.join " " (x :: rest) in
    let f := the_path (fst (resolved env q uid)) in
    let title := song_title_of uid f in
    let w1 := snd (add_to_playlist env uid (name :: x :: rest) w) in
    truthy (fst (resolved env q uid)) = true ->
    store_healthy env ->
    has_key (uid, name, song_url_of q) (db w) = false ->
    file_exists f (downloaded env q uid w) = true ->
    connect_fault env' = None -> execute_fault env' = None ->
    In (mkRow uid name title (song_url_of q)) (db w1)
    /\ exists songs,
         Permutation songs
           (sql_select_songs uid name (db w)
            ++ if String.eqb title "" then [] else [(title, song_url_of q)])
         /\ view_playlist env' uid [name] w1
            = (Ret tt, sent w1 (ReplyText (view_text name songs))).
Proof.
  intros env env' uid name x rest w q f title w1 Ht Hh Hk Hf Hc He.
  assert (E : db w1 = db w ++ [mkRow uid name title (song_url_of q)]).
  { subst w1. rewrite (add_to_playlist_stored env uid name x rest w Ht Hh Hk Hf).
    reflexivity. }
  split.
  - rewrite E. apply in_or_app. right. now left.
  - exists (arrange (row_order env') (sql_select_songs uid name (db w1))).
    split.
    + rewrite arrange_permutation, E, sql_select_songs_app.
      apply Permutation_app_head. unfold sql_select_songs, in_playlist.
      cbn [filter map user_id playlist_name song_title song_url].
      rewrite Z.eqb_refl, String.eqb_refl. cbn [andb].
      destruct (String.eqb title ""); reflexivity.
    + now rewrite (view_playlist_run env' uid name [] w1 Hc He).
Qed.

Lemma add_then_view_witness :
  (let w := mkWorld [chill_track] [] [] in
   let w1 := snd (add_to_playlist env_ok 1 ["Chill"; "https://example/track2"] w) in
   exists songs,
     Permutation songs [("Song", "https://example/track1");
                        ("Song", "https://example/track2")]
     /\ view_playlist env_last_first 1 ["Chill"] w1
        = (Ret tt, sent w1 (ReplyText (view_text "Chill" songs))))
  /\ (let w1 := snd (add_to_playlist env_untitled 1
                       ["Chill"; "https://example/track1"] empty_world) in
      exists songs,
        Permutation songs []
        /\ view_playlist env_ok 1 ["Chill"] w1
           = (Ret tt, sent w1 (ReplyText (view_text "Chill" songs)))).
Proof.
  split.
  - apply (add_then_view env_ok env_last_first 1 "Chill"
             "https://example/track2" [] (mkWorld [chill_track] [] []));
      try reflexivity. repeat split.
  - apply (add_then_view env_untitled env_ok 1 "Chill" "https://example/track1"
             [] empty_world); try reflexivity. repeat split.
Defined.

(** X9. Adds and sentinels do not meet.  The url an add stores always
    starts with "http", so an add never inserts, and never collides with,
    a row of key (owner, name, ''): whether such a row exists is the same
    before and after any add, for every owner and name.  Hence a create
    is answered the same way before and after an add, and the sentinel of
    a playlist never makes an add fail. *)
Theorem add_leaves_sentinel_keys :
  forall env uid args w,
    let w' := snd (add_to_playlist env uid args w) in
    (forall u n, has_key (u, n, "") (db w') = has_key (u, n, "") (db w))
    /\ (forall r, In r (db w') ->
                  In r (db w) \/ PyStr.startswith (song_url r) "http" = true)
    /\ (forall name song_input,
           has_key (uid, name, song_url_of song_input)
                   (db w ++ [sentinel uid name])
           = has_key (uid, name, song_url_of song_input) (db w)).
Proof.
  intros env uid args w w'.
  assert (Hcases : db w' = db w
                   \/ exists r, db w' = db w ++ [r]
                                /\ PyStr.startswith (song_url r) "http" = true).
  { subst w'. destruct args as [|name [|x rest]]; try (left; reflexivity).
    rewrite add_to_playlist_unfold. cbv zeta.
    run_cases; cbn [snd db sent stored removed downloaded];
      first [ left; reflexivity
            | right; eexists; split; [reflexivity|apply song_url_of_http] ]. }
  split; [|split].
  - intros u n. destruct Hcases as [->|(r & -> & Hr)]; [reflexivity|].
    rewrite has_key_app. cbn [has_key existsb]. rewrite orb_false_r.
    replace (key_eqb (primary_key r) (u, n, "")) with false;
      [apply orb_false_r|].
    symmetry. destruct (key_eqb (primary_key r) (u, n, "")) eqn:K; [|reflexivity].
    apply key_eqb_eq in K. inversion K as [[Ku Kn Kurl]].
    rewrite Kurl in Hr. discriminate Hr.
  - intros r Hin. destruct Hcases as [E|(r' & E & Hr)]; rewrite E in Hin.
    + now left.
    + apply in_app_or in Hin. destruct Hin as [Hin|[<-|[]]]; auto.
  - intros name song_input. rewrite has_key_app. cbn [has_key existsb].
    rewrite orb_false_r.
    replace (key_eqb (primary_key (sentinel uid name)) _) with false;
      [apply orb_false_r|].
    symmetry.
    destruct (key_eqb (primary_key (sentinel uid name))
                (uid, name, song_url_of song_input)) eqn:K;
      [|reflexivity].
    apply key_eqb_eq in K. inversion K as [Kurl].
    symmetry in Kurl. now apply song_url_of_nonempty in Kurl.
Qed.

Lemma add_leaves_sentinel_keys_witness :
  let w := mkWorld [sentinel 2 "Chill"] [] [] in
  let w' := snd (add_to_playlist env_ok 1 ["Chill"; "lofi"] w) in
  has_key (1%Z, "Chill", "") (db w') = false
  /\ has_key (2%Z, "Chill", "") (db w') = true
  /\ (In (mkRow 1 "Chill" "Song" "https://www.youtube.com/watch?v=lofi") (db w)
      \/ PyStr.startswith "https://www.youtube.com/watch?v=lofi" "http" = true).
Proof.
  destruct (add_leaves_sentinel_keys env_ok 1 ["Chill"; "lofi"]
              (mkWorld [sentinel 2 "Chill"] [] [])) as (H1 & H2 & _).
  split; [|split].
  - rewrite H1. reflexivity.
  - rewrite H1. reflexivity.
  - apply (H2 (mkRow 1 "Chill" "Song" "https://www.youtube.com/watch?v=lofi")).
    cbn. right. left. reflexivity.
Defined.

Lemma sql_delete_idempotent uid name t :
  sql_delete uid name (sql_delete uid name t) = sql_delete uid name t.
Proof.
  unfold sql_delete. rewrite filter_filter. apply filter_ext.
  intros r. now destruct (in_playlist uid name r).
Qed.

Lemma has_key_sql_delete uid name url t :
  has_key (uid, name, url) (sql_delete uid name t) = false.
Proof.
  apply has_key_false. intros r Hin K. apply filter_In in Hin.
  destruct Hin as [_ Hn]. apply negb_true_iff in Hn.
  unfold in_playlist in Hn. inversion K as [[Ku Kn Kurl]].
  rewrite Ku, Kn, Z.eqb_refl, String.eqb_refl in Hn. discriminate Hn.
Qed.

Lemma sql_select_songs_sql_delete uid name t :
  sql_select_songs uid name (sql_delete uid name t) = [].
Proof.
  unfold sql_select_songs, sql_delete. rewrite filter_filter.
  replace (filter _ t) with (@nil Row); [reflexivity|].
  symmetry. induction t as [|r t IH]; [reflexivity|].
  cbn [filter]. destruct (in_playlist uid name r); cbn [negb andb]; exact IH.
Qed.

(** X10. Delete starts a playlist over.  After a delete that went
    through, the playlist is as if it had never existed: a second delete
    changes nothing in the table, a view is answered "No songs in
    '<name>'.", a create is answered "created", and an add of any song
    finds its key free. *)
Theorem delete_starts_over :
  forall env uid x rest w,
    store_healthy env ->
    let name := PyStr.join " " (x :: rest) in
    let w1 := snd (delete_playlist env uid (x :: rest) w) in
    db (snd (delete_playlist env uid (x :: rest) w1)) = db w1
    /\ view_playlist env uid (x :: rest) w1
       = (Ret tt, sent w1 (ReplyText ("No songs in '" ++ name ++ "'.")))
    /\ create_playlist env uid (x :: rest) w1
       = (Ret tt, sent (stored (db w1 ++ [sentinel uid name]) w1)
                       (ReplyText ("Playlist '" ++ name ++ "' created.")))
    /\ (forall url, has_key (uid, name, url) (db w1) = false).
Proof.
  intros env uid x rest w Hh name w1.
  assert (E : db w1 = sql_delete uid name (db w)).
  { subst w1. now rewrite (delete_playlist_run env uid x rest w Hh). }
  split; [|split; [|split]].
  - rewrite (delete_playlist_run env uid x rest w1 Hh).
    cbn [snd sent stored db]. fold name. rewrite E.
    apply sql_delete_idempotent.
  - destruct Hh as (Hc & He & _).
    rewrite (view_playlist_run env uid x rest w1 Hc He). fold name.
    now rewrite E, sql_select_songs_sql_delete.
  - apply create_playlist_fresh; [exact Hh|]. fold name. rewrite E.
    apply has_key_sql_delete.
  - intros url. rewrite E. apply has_key_sql_delete.
Qed.

Lemma delete_starts_over_witness :
  let w := mkWorld [sentinel 1 "Chill"; chill_track] [] [] in
  let w1 := snd (delete_playlist env_ok 1 ["Chill"] w) in
  db (snd (delete_playlist env_ok 1 ["Chill"] w1)) = db w1
  /\ view_playlist env_ok 1 ["Chill"] w1
     = (Ret tt, sent w1 (ReplyText "No songs in 'Chill'."))
  /\ create_playlist env_ok 1 ["Chill"] w1
     = (Ret tt, sent (stored (db w1 ++ [sentinel 1 "Chill"]) w1)
                     (ReplyText "Playlist 'Chill' created."))
  /\ (forall url, has_key (1%Z, "Chill", url) (db w1) = false).
Proof.
  apply (delete_starts_over env_ok 1 "Chill" []
           (mkWorld [sentinel 1 "Chill"; chill_track] [] [])).
  repeat split.
Defined.

Lemma playlist_rows_app uid name t1 t2 :
  playlist_rows uid name (t1 ++ t2)
  = playlist_rows uid name t1 ++ playlist_rows uid name t2.
Proof. apply filter_app. Qed.

Lemma playlist_rows_sql_delete_other u n uid name t :
  n <> name ->
  playlist_rows u n (sql_delete uid name t) = playlist_rows u n t.
Proof.
  intros Hn. unfold playlist_rows, sql_delete. rewrite filter_filter.
  apply filter_ext. intros r. unfold in_playlist.
  destruct (String.eqb (playlist_name r) n) eqn:E1;
    [|now rewrite !andb_false_r].
  apply String.eqb_eq in E1.
  replace (String.eqb (playlist_name r) name) with false;
    [now rewrite andb_false_r|].
  symmetry. apply String.eqb_neq. congruence.
Qed.

(** X11. Playlists of one owner are isolated from each other.  A command
    changes no row of a playlist other than the one it addresses, the
    name joined from all arguments for create, view and delete and the
    first argument for add: for every owner and every other name, the
    rows of that playlist are the same before and after the run, whatever
    the collaborators do. *)
Theorem other_playlists_untouched :
  forall env uid c args w u n,
    n <> target_name c args ->
    playlist_rows u n (db (snd (handle env uid (Cmd c args) w)))
    = playlist_rows u n (db w).
Proof.
  intros env uid c args w u n Hn.
  assert (Hins : forall r t, playlist_name r = target_name c args ->
                   playlist_rows u n (t ++ [r]) = playlist_rows u n t).
  { intros r t Hr. rewrite playlist_rows_app. cbn [playlist_rows filter].
    unfold in_playlist. rewrite Hr.
    replace (String.eqb (target_name c args) n) with false;
      [rewrite andb_false_r; apply app_nil_r|].
    symmetry. apply String.eqb_neq. congruence. }
  destruct c; cbn [handle target_name] in *.
  - reflexivity.
  - destruct args as [|x rest]; [reflexivity|].
    rewrite create_playlist_unfold. cbv zeta.
    run_cases; cbn [snd db sent stored]; try reflexivity.
    now apply Hins.
  - destruct args as [|name [|x rest]]; try reflexivity.
    rewrite add_to_playlist_unfold. cbv zeta.
    run_cases; cbn [snd db sent stored removed downloaded]; try reflexivity;
      now apply Hins.
  - now rewrite view_playlist_other.
  - destruct args as [|x rest]; [reflexivity|].
    rewrite delete_playlist_unfold. cbv zeta.
    run_cases; cbn [snd db sent stored]; try reflexivity.
    now apply playlist_rows_sql_delete_other.
Qed.

Lemma other_playlists_untouched_witness :
  playlist_rows 1 "Chill"
    (db (snd (handle env_ok 1 (Cmd CmdDelete ["Chill"; "Out"])
                (mkWorld [sentinel 1 "Chill"; sentinel 1 "Chill Out"] [] []))))
  = [sentinel 1 "Chill"].
Proof.
  apply (other_playlists_untouched env_ok 1 CmdDelete ["Chill"; "Out"]
           (mkWorld [sentinel 1 "Chill"; sentinel 1 "Chill Out"] [] [])
           1%Z "Chill").
  discriminate.
Defined.

(* ================================================================= *)
(** ** Arguments and names *)

(** X12. Splitting and joining arguments round-trip.  The arguments of a
    command are never empty and hold no whitespace character ([str.split]
    splits on every character [str.isspace] accepts); joining such
    arguments with single spaces and splitting again gives them back.  So
    a playlist name made by one command is addressed again by typing it
    after another command, and runs of whitespace between the words of a
    name do not matter. *)
Theorem command_args_round_trip :
  forall text,
    (forall a, In a (command_args text) -> a <> "" /\ PyStr.no_ws a = true)
    /\ PyStr.split_ws (PyStr.join " " (command_args text)) = command_args text
    /\ (forall cmd,
           cmd <> "" -> PyStr.no_ws cmd = true ->
           command_args (cmd ++ " " ++ PyStr.join " " (command_args text))
           = command_args text).
Proof.
  intros text.
  assert (Hgood : forall a, In a (command_args text) ->
                            a <> "" /\ PyStr.no_ws a = true).
  { intros a Hin. destruct (command_args_tokens text a Hin) as (H1 & H2 & _).
    now split. }
  split; [exact Hgood|]. split; [now apply PyStrFacts.split_ws_join|].
  intros cmd Hne Hws. now apply command_args_spell.
Qed.

Lemma command_args_round_trip_witness :
  command_args ("/create_playlist   My 	" ++ nbsp ++ " List ") = ["My"; "List"]
  /\ command_args
       ("/view_playlist" ++ " "
        ++ PyStr.join " "
             (command_args ("/create_playlist   My 	" ++ nbsp ++ " List ")))
     = command_args ("/create_playlist   My 	" ++ nbsp ++ " List ").
Proof.
  split; [reflexivity|].
  destruct (command_args_round_trip
              ("/create_playlist   My 	" ++ nbsp ++ " List "))
    as (_ & _ & H).
  apply (H "/view_playlist"); [discriminate|reflexivity].
Defined.

Lemma has_char_app c s1 s2 :
  has_char c (s1 ++ s2) = has_char c s1 || has_char c s2.
Proof.
  induction s1 as [|d s1 IH]; cbn; [reflexivity|].
  now rewrite IH, orb_assoc.
Qed.

Lemma replace_from_erases c old s : forall skip,
  has_char c s = false -> has_char c (PyStr.replace_from old "" skip s) = false.
Proof.
  induction s as [|d s IH]; intros skip H; cbn [PyStr.replace_from].
  - now destruct (String.eqb old "").
  - cbn [has_char] in H. apply orb_false_iff in H. destruct H as [Hd Hs].
    destruct skip as [|k]; [|now apply IH].
    destruct (String.prefix old (String d s)).
    + cbn [append]. destruct (String.eqb old "").
      * cbn [has_char]. rewrite Hd. now apply IH.
      * now apply IH.
    + cbn [has_char]. rewrite Hd. now apply IH.
Qed.

Lemma split_on_pieces sep s piece :
  In piece (PyStr.split_on sep s) -> has_char sep piece = false.
Proof.
  revert piece. induction s as [|c s IH]; intros piece Hin;
    cbn [PyStr.split_on] in Hin.
  - destruct Hin as [<-|[]]. reflexivity.
  - destruct (Ascii.eqb c sep) eqn:E.
    + destruct Hin as [<-|Hin]; [reflexivity|now apply IH].
    + destruct (PyStr.split_on sep s) as [|p rest] eqn:Es.
      * destruct Hin as [<-|[]]. cbn. now rewrite E.
      * destruct Hin as [<-|Hin].
        -- cbn [has_char]. rewrite E. apply IH. now left.
        -- apply IH. now right.
Qed.

Lemma split_on_nonempty sep s : PyStr.split_on sep s <> [].
Proof.
  destruct s as [|c s]; cbn [PyStr.split_on]; [discriminate|].
  destruct (Ascii.eqb c sep); [discriminate|].
  destruct (PyStr.split_on sep s); discriminate.
Qed.

Lemma last_in {A} (l : list A) (d : A) : l <> [] -> In (last l d) l.
Proof.
  induction l as [|x [|y l] IH]; intros H; [congruence|now left|].
  right. apply IH. discriminate.
Qed.

(** X13. The title an add stores holds no path separator, whatever file
    name the resolver reports and whoever the owner is: only the part of
    the name after the last '/' is kept, and the two erasures that follow
    take characters away and add none. *)
Theorem song_title_has_no_slash :
  forall uid filename, has_char "/" (song_title_of uid filename) = false.
Proof.
  intros uid filename. unfold song_title_of, PyStr.replace.
  apply replace_from_erases, replace_from_erases.
  apply (split_on_pieces "/" filename).
  apply last_in, split_on_nonempty.
Qed.

(* ================================================================= *)
(** ** Create then view, and the files on disk *)

Lemma sql_select_songs_no_rows uid name t :
  playlist_rows uid name t = [] -> sql_select_songs uid name t = [].
Proof.
  unfold playlist_rows, sql_select_songs. intros H.
  replace (filter _ t) with (@nil Row); [reflexivity|].
  symmetry. induction t as [|r t IH]; [reflexivity|].
  cbn [filter] in *. destruct (in_playlist uid name r); [discriminate H|].
  cbn [andb]. now apply IH.
Qed.

(** X14. Create, then view.  With a healthy store, a view right after a
    create of the same name lists, in the order the server returns them,
    exactly the songs the playlist held before the create, whether the
    create was answered "created" or "already exists": the sentinel row is
    never shown.  For a name the owner had no row under, the answer is
    "No songs in '<name>'.". *)
Theorem create_then_view :
  forall env uid x rest w,
    store_healthy env ->
    let name := PyStr.join " " (x :: rest) in
    let w1 := snd (create_playlist env uid (x :: rest) w) in
    (exists songs,
        Permutation songs (sql_select_songs uid name (db w))
        /\ view_playlist env uid (x :: rest) w1
           = (Ret tt, sent w1 (ReplyText (view_text name songs))))
    /\ (playlist_rows uid name (db w) = [] ->
        view_playlist env uid (x :: rest) w1
        = (Ret tt, sent w1 (ReplyText ("No songs in '" ++ name ++ "'.")))).
Proof.
  intros env uid x rest w Hh name w1.
  assert (Hs : sql_select_songs uid name (db w1)
               = sql_select_songs uid name (db w)).
  { destruct Hh as (Hc & He & Hm).
    subst w1. rewrite create_playlist_unfold. cbv zeta.
    rewrite Hc, He, Hm. fold name.
    destruct (has_key _ _); cbn [snd sent stored db]; [reflexivity|].
    rewrite sql_select_songs_app. unfold sql_select_songs at 2.
    cbn [filter map sentinel song_title]. rewrite andb_false_r.
    apply app_nil_r. }
  assert (Hv : view_playlist env uid (x :: rest) w1
               = (Ret tt, sent w1 (ReplyText
                    (view_text name
                       (arrange (row_order env)
                          (sql_select_songs uid name (db w))))))).
  { destruct Hh as (Hc & He & Hm).
    rewrite (view_playlist_run env uid x rest w1 Hc He). fold name.
    now rewrite Hs. }
  split.
  - eexists. split; [apply arrange_permutation|exact Hv].
  - intros Hnone. rewrite Hv.
    now rewrite (sql_select_songs_no_rows uid name (db w) Hnone).
Qed.

Lemma create_then_view_witness :
  let w1 := snd (create_playlist env_ok 1 ["Chill"] empty_world) in
  view_playlist env_ok 1 ["Chill"] w1
  = (Ret tt, sent w1 (ReplyText "No songs in 'Chill'.")).
Proof.
  destruct (create_then_view env_ok 1 "Chill" [] empty_world) as (_ & H).
  - repeat split.
  - apply H. reflexivity.
Defined.

Lemma file_exists_removed_other f g w :
  g <> f -> file_exists g (removed f w) = file_exists g w.
Proof.
  intros Hne. unfold file_exists, removed. cbn [files].
  induction (files w) as [|h l IH]; [reflexivity|].
  cbn [filter existsb]. destruct (String.eqb f h) eqn:E; cbn [negb].
  - apply String.eqb_eq in E. subst h.
    replace (String.eqb g f) with false; [exact IH|].
    symmetry. now apply String.eqb_neq.
  - cbn [existsb]. now rewrite IH.
Qed.

Lemma file_exists_downloaded env q uid g w :
  file_exists g w = true ->
  existsb (String.eqb g)
    (ydl_removed (ydl_extract_info env q
                    (negb (PyStr.startswith q "http")) uid)) = false ->
  file_exists g (downloaded env q uid w) = true.
Proof.
  unfold file_exists, downloaded, files_after. cbn [files]. intros H Hr.
  rewrite existsb_app. apply orb_true_iff. right.
  apply existsb_exists in H. destruct H as [h [Hin Hh]].
  apply String.eqb_eq in Hh. subst h.
  apply existsb_exists. exists g. split; [|apply String.eqb_refl].
  apply filter_In. split; [exact Hin|]. now rewrite Hr.
Qed.

Lemma store_commands_keep_files env uid c args w :
  c <> CmdAdd -> files (snd (handle env uid (Cmd c args) w)) = files w.
Proof.
  intros Hc. destruct c; try congruence; cbn [handle];
    try reflexivity; (destruct args as [|x rest]; [reflexivity|]).
  - rewrite create_playlist_unfold. cbv zeta. run_cases; reflexivity.
  - rewrite view_playlist_unfold. cbv zeta. run_cases; reflexivity.
  - rewrite delete_playlist_unfold. cbv zeta. run_cases; reflexivity.
Qed.

(** X15. What a run takes from the disk.  A file that was on disk before
    a run is still there after it unless the run of yt_dlp deleted it or
    it bears the name an add command passes to [os.remove]: the handlers
    themselves remove nothing else, and the bare-text handler removes
    nothing at all.  A file that bears the name passed to [os.remove] is
    removed even when it was there before the run. *)
Theorem files_kept_by_run :
  forall env uid u w g,
    file_exists g w = true ->
    removed_by_resolver env uid u g = false ->
    g <> resolved_name env uid u ->
    file_exists g (snd (handle env uid u w)) = true.
Proof.
  intros env uid u w g Hg Hr Hne.
  destruct u as [raw|[] args];
    cbn [handle resolved_name] in *.
  - unfold removed_by_resolver, resolver_query in Hr.
    rewrite handle_message_unfold. cbv zeta.
    destruct (String.eqb (PyStr.strip raw) ""); [exact Hg|].
    run_cases; cbn [snd]; rewrite ?file_exists_sent;
      (apply file_exists_downloaded; [|exact Hr]);
      rewrite ?file_exists_sent; exact Hg.
  - exact Hg.
  - assert (Hf : files (snd (handle env uid (Cmd CmdCreate args) w)) = files w)
      by (apply store_commands_keep_files; discriminate).
    cbn [handle] in Hf. unfold file_exists. rewrite Hf. exact Hg.
  - destruct args as [|name [|x rest]]; try exact Hg.
    unfold removed_by_resolver, resolver_query in Hr.
    rewrite add_to_playlist_unfold. cbv zeta.
    run_cases; cbn [snd];
      rewrite ?file_exists_sent;
      rewrite ?file_exists_removed_other by exact Hne;
      rewrite ?file_exists_stored;
      (apply file_exists_downloaded; [exact Hg|exact Hr]).
  - assert (Hf : files (snd (handle env uid (Cmd CmdView args) w)) = files w)
      by (apply store_commands_keep_files; discriminate).
    cbn [handle] in Hf. unfold file_exists. rewrite Hf. exact Hg.
  - assert (Hf : files (snd (handle env uid (Cmd CmdDelete args) w)) = files w)
      by (apply store_commands_keep_files; discriminate).
    cbn [handle] in Hf. unfold file_exists. rewrite Hf. exact Hg.
Qed.

Lemma files_kept_by_run_witness :
  let w := mkWorld [] ["/tmp/2_Song.mp3"; "/tmp/1_Song.mp3"] [] in
  let u := Cmd CmdAdd ["Chill"; "lofi"] in
  file_exists "/tmp/2_Song.mp3" (snd (handle env_ok 1 u w)) = true
  /\ file_exists "/tmp/1_Song.mp3" (snd (handle env_ok 1 u w)) = false.
Proof.
  split; [|reflexivity].
  apply (files_kept_by_run env_ok 1 (Cmd CmdAdd ["Chill"; "lofi"])
           (mkWorld [] ["/tmp/2_Song.mp3"; "/tmp/1_Song.mp3"] [])
           "/tmp/2_Song.mp3"); [reflexivity|reflexivity|discriminate].
Defined.
